(** * Persona-adaptive chatbot: the persona adaptation engine

    A shallow embedding of [backend/behavioral_analyzer.py],
    [backend/persona_engine.py], the topic hint and the instructions of
    [backend/rag_handler.py] and the handling of a prompt in [app.py], with
    the properties of the engine proved over it.

    Python values are embedded as follows.
    - [float] is Rocq's primitive binary64 float, the same IEEE 754 format
      as Python's [float]; literals are rounded to the nearest double
      exactly as Python's parser does.
    - [int] is [Z].
    - [str] is [string]; every character stands for a code point below 256.
    - a [list] is a [list]; a [dict] is an association list in insertion
      order with first-match lookup (Python dicts iterate in insertion
      order, and [sorted] is stable over that order).
    - an exception is the [Raise] case of [result]. *)

From Stdlib Require Import ZArith List String Ascii Bool Floats Lia.
From Stdlib Require Import Permutation Sorted.
From stdpp Require Import base list sorting gmap strings.
Import ListNotations.

Set Warnings "-inexact-float".
#[local] Open Scope string_scope.
#[local] Open Scope list_scope.
#[local] Open Scope Z_scope.

(** ** Python numbers *)

(** A value that is an [int] at some program points and a [float] at
    others ([avg_message_length] is the int [20] in a new persona and a
    float after the first update). *)
Inductive pynum : Type :=
| PInt (n : Z)
| PFloat (f : float).

(** The nearest integer to [num / den], ties to even, for [den > 0]. *)
Definition round_half_even (num den : Z) : Z :=
  let q := num / den in
  match 2 * (num mod den) ?= den with
  | Lt => q
  | Gt => q + 1
  | Eq => if Z.even q then q else q + 1
  end.

Definition signed_zero (s : bool) : float :=
  if s then (-0)%float else 0%float.

(** The double nearest to [± n / d] (ties to even): IEEE division of the two
    integers, carried out on the specification floats so that integers above
    [2^53] are not rounded beforehand. *)
Definition nearest_quotient (s : bool) (n d : positive) : float :=
  SF2Prim (SFdiv prec emax (S754_finite s n 0) (S754_finite false d 0)).

(** [a / b] on ints (true division): the correctly rounded quotient.
    The call sites guard [b = 0]; a quotient beyond the float range, where
    Python raises OverflowError, is infinite here. *)
Definition int_truediv (a b : Z) : float :=
  match a, b with
  | Z.pos n, Z.pos d | Z.neg n, Z.neg d => nearest_quotient false n d
  | Z.neg n, Z.pos d | Z.pos n, Z.neg d => nearest_quotient true n d
  | Z0, Z.neg _ => (-0)%float
  | _, _ => 0%float
  end.

(** [float(n)] for an int. *)
Definition float_of_int (n : Z) : float := int_truediv n 1.

(** [round(x, ndigits)] for [ndigits >= 0]: the exact value of [x] is
    rounded half-even to [ndigits] decimals and the decimal result is read
    back as the nearest double (CPython's [double_round]); zeros keep their
    sign, and infinities and NaN are returned unchanged. *)
Definition py_round (x : float) (ndigits : nat) : float :=
  if (323 <? Z.of_nat ndigits)%Z then x else
  match Prim2SF x with
  | S754_finite s m e =>
      let scale := 10 ^ Z.of_nat ndigits in
      let k := if 0 <=? e then Z.pos m * 2 ^ e * scale
               else round_half_even (Z.pos m * scale) (2 ^ (- e)) in
      match k with
      | Z.pos k' => nearest_quotient s k' (Z.to_pos scale)
      | _ => signed_zero s
      end
  | _ => x
  end.

(** [x > c] and [x < c] for a number [x] and a float literal [c]. *)
Definition num_gt_float (x : pynum) (c : float) : bool :=
  match x with
  | PInt n => (c <? float_of_int n)%float
  | PFloat f => (c <? f)%float
  end.

(** [x > k] and [x < k] for a number [x] and an int literal [k]. *)
Definition num_gt_int (x : pynum) (k : Z) : bool :=
  match x with
  | PInt n => (k <? n)%Z
  | PFloat f => (float_of_int k <? f)%float
  end.

Definition num_lt_int (x : pynum) (k : Z) : bool :=
  match x with
  | PInt n => (n <? k)%Z
  | PFloat f => (f <? float_of_int k)%float
  end.

(** [sum(l)] and [len(l)] on a list of ints. *)
Definition py_sum (l : list Z) : Z := fold_left Z.add l 0.
Definition len {A : Type} (l : list A) : Z := Z.of_nat (length l).

(** ** Python strings *)

(** [str.isspace] on one code point below 256. *)
Definition is_space (c : ascii) : bool :=
  let n := N_of_ascii c in
  ((9 <=? n) && (n <=? 13) || (28 <=? n) && (n <=? 32)
   || (n =? 133) || (n =? 160))%N.

(** [s.split()]: the maximal runs of non-space characters. [word] is the
    run read so far. *)
Fixpoint split_from (word : string) (s : string) : list string :=
  match s with
  | EmptyString => if String.eqb word "" then [] else [word]
  | String c r =>
      if is_space c then
        if String.eqb word "" then split_from "" r
        else word :: split_from "" r
      else split_from (word ++ String c EmptyString)%string r
  end.

Definition py_split (s : string) : list string := split_from "" s.

(** [sep.join(l)]. *)
Fixpoint join (sep : string) (l : list string) : string :=
  match l with
  | [] => ""
  | [x] => x
  | x :: r => (x ++ sep ++ join sep r)%string
  end.

(** [s.replace(old, new)] for one-character [old] and [new]. *)
Fixpoint str_replace (old new : ascii) (s : string) : string :=
  match s with
  | EmptyString => EmptyString
  | String c r =>
      String (if Ascii.eqb c old then new else c) (str_replace old new r)
  end.

(** The line feed. *)
Definition nl : string := String (ascii_of_nat 10) EmptyString.

(** The case conversions of [str], which CPython takes from the Unicode
    database. *)
Class PyStr : Type := {
  str_lower : string -> string;
  str_capitalize : string -> string
}.

(** How an f-string prints an int or a float ([repr] for a float). *)
Class PyFormat : Type := {
  format_num : pynum -> string
}.

(** ** Exceptions *)

Inductive exn : Type :=
| OSError
| JSONDecodeError.

Inductive result (A : Type) : Type :=
| Return (a : A)
| Raise (e : exn).
Arguments Return {A} a.
Arguments Raise {A} e.

(** ** Dicts with string keys, in insertion order *)

Section Dict.
Context {V : Type}.

(** [d.get(k)]. *)
Fixpoint dict_lookup (d : list (string * V)) (k : string) : option V :=
  match d with
  | [] => None
  | (k', v) :: r => if String.eqb k' k then Some v else dict_lookup r k
  end.

(** [d.get(k, default)]. *)
Definition dict_get (d : list (string * V)) (k : string) (default : V) : V :=
  match dict_lookup d k with
  | Some v => v
  | None => default
  end.

(** [d[k] = v]: an existing key keeps its place, a new one goes last. *)
Fixpoint dict_set (d : list (string * V)) (k : string) (v : V)
  : list (string * V) :=
  match d with
  | [] => [(k, v)]
  | (k', v') :: r =>
      if String.eqb k' k then (k', v) :: r else (k', v') :: dict_set r k v
  end.

End Dict.

(** ** behavioral_analyzer.py *)

(** What the code reads off [TextBlob(text)]: [blob.sentiment.polarity] and
    [blob.tags], the (word, part-of-speech tag) pairs. *)
Class TextBlob : Type := {
  sentiment_polarity : string -> float;
  tags : string -> list (string * string)
}.

(** [list(set(l))]: the elements of [l] in the iteration order of the set
    built from them. CPython orders a set of strings by their hashes, which
    are salted per process. *)
Class SetIteration : Type := {
  list_of_set : list string -> list string
}.

(** What every iteration order has in common: each element of the set is
    listed once. *)
Definition set_iteration_lawful (order : SetIteration) : Prop :=
  forall l : list string,
    NoDup (list_of_set l) /\ (forall x, x ∈ list_of_set l <-> x ∈ l).

Record Emotion : Type := {
  polarity : float;
  sentiment : string
}.

Record BehavioralData : Type := {
  typing_speed : string;
  emotion : Emotion;
  topics : list string;
  message_length : Z
}.

Definition analyze_typing_speed (time_diff_seconds : float) : string :=
  if (time_diff_seconds <? float_of_int 2)%float then "very_fast"
  else if (time_diff_seconds <? float_of_int 5)%float then "fast"
  else if (time_diff_seconds <? float_of_int 15)%float then "moderate"
  else "slow".

(** The label chosen by the [if/elif/else] of [detect_emotion]. *)
Definition sentiment_label (polarity : float) : string :=
  if (0.3 <? polarity)%float then "positive"
  else if (polarity <? - 0.3)%float then "negative"
  else "neutral".

Definition detect_emotion `{TextBlob} (text : string) : Emotion :=
  let polarity := sentiment_polarity text in
  {| polarity := py_round polarity 2; sentiment := sentiment_label polarity |}.

Definition common_words : list string :=
  ["user"; "chatbot"; "question"; "answer"; "information"].

Definition is_common_word (w : string) : bool :=
  existsb (String.eqb w) common_words.

Definition map_context `{TextBlob} `{SetIteration} `{PyStr} (text : string)
  : list string :=
  let topics :=
    map (fun wp => str_lower (fst wp))
      (List.filter
         (fun wp => String.prefix "NN" (snd wp)
                    && negb (is_common_word (str_lower (fst wp))))
         (tags text)) in
  list_of_set topics.

Definition analyze_behavior `{TextBlob} `{SetIteration} `{PyStr}
  (user_input : string) (time_since_last_message : float) : BehavioralData :=
  {| typing_speed := analyze_typing_speed time_since_last_message;
     emotion := detect_emotion user_input;
     topics := map_context user_input;
     message_length := len (py_split user_input) |}.

(** ** persona_engine.py *)

Definition PERSONA_DIR : string := "personas".
Definition HISTORY_LENGTH : Z := 10.

Record EmotionalState : Type := {
  current_sentiment : string;
  sentiment_history : list float
}.

Record BehavioralPatterns : Type := {
  avg_typing_speed : string;
  speed_history : list Z;
  avg_message_length : pynum;
  length_history : list Z
}.

Record ContextualPreferences : Type := {
  topic_interests : list (string * Z)
}.

Record Persona : Type := {
  user_id : string;
  communication_style : string;
  emotional_state : EmotionalState;
  behavioral_patterns : BehavioralPatterns;
  contextual_preferences : ContextualPreferences;
  interaction_count : Z
}.

(** The persistence collaborator: the file system calls of the module, over
    file system states [FS]. [json_load fs path] is
    [with open(path, 'r') as f: json.load(f)], which raises when the file
    cannot be read or is not valid JSON, and [json_dump fs path p] is
    [with open(path, 'w') as f: json.dump(p, f, indent=4)], which raises
    when the file cannot be opened for writing (its directory does not
    exist, for one). Both are typed at persona records. The code calls
    [os.makedirs] only for [PERSONA_DIR], and only when nothing of that name
    exists; it is taken to succeed there. *)
Class Persistence (FS : Type) : Type := {
  os_path_exists : FS -> string -> bool;
  os_makedirs : FS -> string -> FS;
  json_load : FS -> string -> result Persona;
  json_dump : FS -> string -> Persona -> result FS
}.

(** A persona value is a Python dict: the keys of [topic_interests] are
    distinct. *)
Definition is_dict (p : Persona) : Prop :=
  NoDup (map fst (topic_interests (contextual_preferences p))).

(** What the module relies on from the collaborator: after a write that
    did not raise, the file exists and reads back as the persona written to
    it. *)
Record PersistenceLaws {FS : Type} (P : Persistence FS) : Prop := {
  load_after_dump : forall (fs fs' : FS) (path : string) (p : Persona),
    json_dump fs path p = Return fs' -> is_dict p ->
    json_load fs' path = Return p;
  exists_after_dump : forall (fs fs' : FS) (path : string) (p : Persona),
    json_dump fs path p = Return fs' -> os_path_exists fs' path = true
}.

(** [os.path.join(a, b)] on POSIX: an absolute [b] replaces [a]. *)
Definition os_path_join (a b : string) : string :=
  if String.prefix "/" b then b
  else if String.eqb a "" then b
  else if String.eqb (substring (String.length a - 1) 1 a) "/"
       then (a ++ b)%string
  else (a ++ "/" ++ b)%string.

(** The dict literal returned by [create_new_persona]. *)
Definition new_persona_dict (user_id : string) : Persona :=
  {| user_id := user_id;
     communication_style := "neutral";
     emotional_state :=
       {| current_sentiment := "neutral"; sentiment_history := [] |};
     behavioral_patterns :=
       {| avg_typing_speed := "moderate";
          speed_history := [];
          avg_message_length := PInt 20;
          length_history := [] |};
     contextual_preferences := {| topic_interests := [] |};
     interaction_count := 0 |}.

Definition create_new_persona {FS} `{Persistence FS} (fs : FS)
  (user_id : string) : FS * Persona :=
  let fs :=
    if negb (os_path_exists fs PERSONA_DIR) then os_makedirs fs PERSONA_DIR
    else fs in
  (fs, new_persona_dict user_id).

Definition get_persona_filepath (user_id : string) : string :=
  os_path_join PERSONA_DIR (user_id ++ "_persona.json")%string.

Definition get_or_create_persona {FS} `{Persistence FS} (fs : FS)
  (user_id : string) : result (FS * Persona) :=
  let filepath := get_persona_filepath user_id in
  if os_path_exists fs filepath then
    match json_load fs filepath with
    | Return persona_data => Return (fs, persona_data)
    | Raise e => Raise e
    end
  else Return (create_new_persona fs user_id).

Definition save_persona {FS} `{Persistence FS} (fs : FS) (persona : Persona)
  : result FS :=
  let filepath := get_persona_filepath (user_id persona) in
  json_dump fs filepath persona.

(** [history.append(x)] followed by
    [if len(history) > HISTORY_LENGTH: history.pop(0)], the three lines that
    [update_persona] repeats for each of its histories. *)
Definition append_capped {A : Type} (history : list A) (x : A) : list A :=
  let history := history ++ [x] in
  if HISTORY_LENGTH <? len history then tl history else history.

Definition speed_map : list (string * Z) :=
  [("very_fast", 4); ("fast", 3); ("moderate", 2); ("slow", 1)].

(** [sum(l) / len(l) if l else default]. *)
Definition mean_or (l : list Z) (default : pynum) : pynum :=
  match l with
  | [] => default
  | _ => PFloat (int_truediv (py_sum l) (len l))
  end.

(** The [if/elif] chain on [avg_speed_val]. *)
Definition classify_speed (avg_speed_val : pynum) : string :=
  if num_gt_float avg_speed_val 3.5 then "very_fast"
  else if num_gt_float avg_speed_val 2.5 then "fast"
  else if num_gt_float avg_speed_val 1.5 then "moderate"
  else "slow".

(** [round(sum(l) / len(l), 1) if l else 20]. *)
Definition rounded_mean_length (l : list Z) : pynum :=
  match l with
  | [] => PInt 20
  | _ => PFloat (py_round (int_truediv (py_sum l) (len l)) 1)
  end.

(** The [if/elif/else] on [avg_message_length]. *)
Definition classify_style (avg_message_length : pynum) : string :=
  if num_gt_int avg_message_length 30 then "detailed"
  else if num_lt_int avg_message_length 10 then "brief"
  else "neutral".

(** The loop over [behavioral_data["topics"]]. *)
Definition count_topics (topic_interests : list (string * Z))
  (topics : list string) : list (string * Z) :=
  fold_left
    (fun d topic => dict_set d topic (dict_get d topic 0 + 1))
    topics topic_interests.

Definition update_persona (persona : Persona)
  (behavioral_data : BehavioralData) : Persona :=
  let interaction_count := interaction_count persona + 1 in
  let emotion := emotion behavioral_data in
  let sentiment_history :=
    append_capped (sentiment_history (emotional_state persona))
      (polarity emotion) in
  let speed_history :=
    append_capped (speed_history (behavioral_patterns persona))
      (dict_get speed_map (typing_speed behavioral_data) 2) in
  let avg_speed_val := mean_or speed_history (PInt 2) in
  let length_history :=
    append_capped (length_history (behavioral_patterns persona))
      (message_length behavioral_data) in
  let avg_message_length := rounded_mean_length length_history in
  {| user_id := user_id persona;
     communication_style := classify_style avg_message_length;
     emotional_state :=
       {| current_sentiment := sentiment emotion;
          sentiment_history := sentiment_history |};
     behavioral_patterns :=
       {| avg_typing_speed := classify_speed avg_speed_val;
          speed_history := speed_history;
          avg_message_length := avg_message_length;
          length_history := length_history |};
     contextual_preferences :=
       {| topic_interests :=
            count_topics (topic_interests (contextual_preferences persona))
              (topics behavioral_data) |};
     interaction_count := interaction_count |}.

(** [update_persona] applied to the signals of consecutive turns. *)
Definition update_all (persona : Persona) (signals : list BehavioralData)
  : Persona :=
  fold_left update_persona signals persona.

(** [sorted(items, key=lambda item: item[1], reverse=True)]: insertion into
    a list that is already in descending order of the counts, in front of
    the first item whose count is not larger. [sorted] is stable, also with
    [reverse=True], and a stable sort has only one possible result. *)
Fixpoint insert_by_count (x : string * Z) (l : list (string * Z))
  : list (string * Z) :=
  match l with
  | [] => [x]
  | y :: r => if snd x <? snd y then y :: insert_by_count x r else x :: l
  end.

Definition sorted_by_count (items : list (string * Z)) : list (string * Z) :=
  fold_right insert_by_count [] items.

(** [sorted(topics.items(), key=..., reverse=True)[:3]]. *)
Definition top_topics (topic_interests : list (string * Z))
  : list (string * Z) :=
  firstn 3 (sorted_by_count topic_interests).

(** The text [get_persona_summary] appends for the top topics. *)
Definition top_topics_text `{PyStr} (top_topics : list (string * Z))
  : string :=
  fold_left
    (fun summary item =>
       (summary ++ "  - `" ++ str_capitalize (fst item) ++ "`" ++ nl)%string)
    top_topics
    (nl ++ "- **Top Topics**:" ++ nl)%string.

(** The f-string that opens the summary. *)
Definition summary_header `{PyStr} `{PyFormat} (persona : Persona) : string :=
  (nl ++ "    - **Emotion**: `"
   ++ str_capitalize (current_sentiment (emotional_state persona))
   ++ "`" ++ nl ++ "    - **Comm. Style**: `"
   ++ str_capitalize (communication_style persona)
   ++ "`" ++ nl ++ "    - **Avg. Speed**: `"
   ++ str_capitalize
        (str_replace "_" " " (avg_typing_speed (behavioral_patterns persona)))
   ++ "`" ++ nl ++ "    - **Avg. Length**: `"
   ++ format_num (avg_message_length (behavioral_patterns persona))
   ++ "` words" ++ nl ++ "    ")%string.

Definition get_persona_summary `{PyStr} `{PyFormat} (persona : Persona)
  : string :=
  let summary := summary_header persona in
  let topics := topic_interests (contextual_preferences persona) in
  match topics with
  | [] => summary
  | _ => (summary ++ top_topics_text (top_topics topics))%string
  end.

(** ** rag_handler.py *)

(** The [topic_hint] of [create_persona_aware_prompt]. *)
Definition topic_hint (persona : Persona) : string :=
  let top_topics :=
    sorted_by_count (topic_interests (contextual_preferences persona)) in
  match top_topics with
  | [] => ""
  | _ =>
      ("The user is often interested in topics like "
       ++ join ", " (map fst (firstn 3 top_topics)) ++ ".")%string
  end.

(** The [tone_instruction] and the [length_instruction] of
    [create_persona_aware_prompt]. *)
Definition tone_instruction (persona : Persona) : string :=
  let sentiment := current_sentiment (emotional_state persona) in
  if String.eqb sentiment "positive"
  then "Your tone should be upbeat and encouraging."
  else if String.eqb sentiment "negative"
  then "Your tone should be calm, empathetic, and reassuring."
  else "Your tone should be helpful and neutral.".

Definition length_instruction (persona : Persona) : string :=
  let style := communication_style persona in
  if String.eqb style "brief"
  then "Keep your answer concise and to the point."
  else if String.eqb style "detailed"
  then "Provide a detailed, in-depth answer, explaining the concepts clearly."
  else "Provide a comprehensive answer.".

(** ** app.py *)

(** What the script does with a prompt before it asks for the answer: the
    behavioural analysis, the update of the persona of the session, and
    then the save. [time_since_last_message] is the difference of the two
    clock readings. The result is the persona the session holds after the
    update, and what the save did: the file system it left, or the
    exception it raised. *)
Definition on_prompt {FS} `{Persistence FS} `{TextBlob} `{SetIteration}
  `{PyStr} (fs : FS) (persona : Persona) (prompt : string)
  (time_since_last_message : float) : Persona * result FS :=
  let behavioral_data := analyze_behavior prompt time_since_last_message in
  let persona := update_persona persona behavioral_data in
  (persona, save_persona fs persona).

(** One more prompt of a session, as long as no save has raised. *)
Definition next_prompt {FS} `{Persistence FS} `{TextBlob} `{SetIteration}
  `{PyStr} (state : result (FS * Persona)) (turn : string * float)
  : result (FS * Persona) :=
  match state with
  | Return (fs, persona) =>
      match on_prompt fs persona turn.1 turn.2 with
      | (persona, Return fs) => Return (fs, persona)
      | (_, Raise e) => Raise e
      end
  | Raise e => Raise e
  end.

(** The prompts of a session, each with the time since the previous
    message, handled one after the other; an exception of a save ends the
    run of the script. *)
Definition run_session {FS} `{Persistence FS} `{TextBlob} `{SetIteration}
  `{PyStr} (fs : FS) (persona : Persona) (turns : list (string * float))
  : result (FS * Persona) :=
  fold_left next_prompt turns (Return (fs, persona)).

(** ** Instances for the examples *)

Definition lower_char (c : ascii) : ascii :=
  let n := N_of_ascii c in
  if ((65 <=? n) && (n <=? 90))%N then ascii_of_N (n + 32) else c.

Definition upper_char (c : ascii) : ascii :=
  let n := N_of_ascii c in
  if ((97 <=? n) && (n <=? 122))%N then ascii_of_N (n - 32) else c.

Fixpoint map_chars (f : ascii -> ascii) (s : string) : string :=
  match s with
  | EmptyString => EmptyString
  | String c r => String (f c) (map_chars f r)
  end.

(** [lower] and [capitalize] as they act on ASCII text. *)
Definition ascii_str : PyStr :=
  {| str_lower := map_chars lower_char;
     str_capitalize := fun s =>
       match s with
       | EmptyString => EmptyString
       | String c r => String (upper_char c) (map_chars lower_char r)
       end |}.

(** Two iteration orders of a set: the distinct elements in the order in
    which the list has them (each at its last occurrence), and the same
    backwards. *)
Definition kept_order : SetIteration :=
  {| list_of_set := remove_dups |}.

Definition reversed_order : SetIteration :=
  {| list_of_set := fun l => reverse (remove_dups l) |}.

(** A text model that scores every text [polarity] and tags every word as
    a noun. *)
Definition all_nouns (polarity : float) : TextBlob :=
  {| sentiment_polarity := fun _ => polarity;
     tags := fun text => map (fun w => (w, "NN")) (py_split text) |}.

(** *** A file system in memory *)

(** [path.split('/')]: the names between the slashes of a path. [word] is
    the name read so far. *)
Fixpoint split_slash (word : string) (s : string) : list string :=
  match s with
  | EmptyString => [word]
  | String c r =>
      if Ascii.eqb c "/" then word :: split_slash "" r
      else split_slash (word ++ String c EmptyString)%string r
  end.

Definition components (path : string) : list string := split_slash "" path.

(** A directory tree without links, in which every name is admissible and
    names are told apart exactly: the working directory, the directories
    besides the root, and the regular files, each given by the names on the
    way from the root. A file has the JSON document that is its content,
    typed at persona records, or [None] when its content is not valid
    JSON. *)
Record MemFS : Type := {
  cwd : list string;
  dirs : gset (list string);
  files : gmap (list string) (option Persona)
}.

Definition is_dir (fs : MemFS) (location : list string) : bool :=
  bool_decide (location = []) || bool_decide (location ∈ dirs fs).

(** Whether a name stands for the directory it is looked up in. *)
Definition is_here (name : string) : bool :=
  String.eqb name "" || String.eqb name ".".

(** The directory reached from the directory [current] along [names], when
    every directory named on the way exists. *)
Fixpoint walk (fs : MemFS) (current : list string) (names : list string)
  : option (list string) :=
  match names with
  | [] => Some current
  | name :: rest =>
      if is_here name then walk fs current rest
      else if String.eqb name ".." then walk fs (removelast current) rest
      else if is_dir fs (current ++ [name])
           then walk fs (current ++ [name]) rest
      else None
  end.

(** Where a relative path starts, and where an absolute one. *)
Definition start_of (fs : MemFS) (path : string) : list string :=
  if String.prefix "/" path then [] else cwd fs.

(** The place a path names, whether or not something is there: the
    directory of the path has to exist. *)
Definition locate (fs : MemFS) (path : string) : option (list string) :=
  if String.eqb path "" then None else
  let names := components path in
  match walk fs (start_of fs path) (removelast names) with
  | None => None
  | Some directory =>
      let name := List.last names "" in
      Some (if is_here name then directory
            else if String.eqb name ".." then removelast directory
            else directory ++ [name])
  end.

(** [os.makedirs]: every directory on the way is made. *)
Fixpoint make_dirs (made : gset (list string)) (current : list string)
  (names : list string) : gset (list string) :=
  match names with
  | [] => made
  | name :: rest =>
      if is_here name then make_dirs made current rest
      else if String.eqb name ".." then make_dirs made (removelast current) rest
      else make_dirs ({[current ++ [name]]} ∪ made) (current ++ [name]) rest
  end.

(** The dict [json.load] builds from the members of a JSON object: a name
    that is repeated keeps its first place and its last value. *)
Definition dict_of_items {V : Type} (items : list (string * V))
  : list (string * V) :=
  fold_left (fun d item => dict_set d item.1 item.2) items [].

(** The persona [json.load] returns for the document of a persona. *)
Definition loaded_persona (document : Persona) : Persona :=
  {| user_id := user_id document;
     communication_style := communication_style document;
     emotional_state := emotional_state document;
     behavioral_patterns := behavioral_patterns document;
     contextual_preferences :=
       {| topic_interests :=
            dict_of_items
              (topic_interests (contextual_preferences document)) |};
     interaction_count := interaction_count document |}.

Definition mem_persistence : Persistence MemFS :=
  {| os_path_exists := fun fs path =>
       match locate fs path with
       | Some location =>
           is_dir fs location || bool_decide (is_Some (files fs !! location))
       | None => false
       end;
     os_makedirs := fun fs path =>
       {| cwd := cwd fs;
          dirs := make_dirs (dirs fs) (start_of fs path) (components path);
          files := files fs |};
     json_load := fun fs path =>
       match locate fs path with
       | Some location =>
           if is_dir fs location then Raise OSError
           else match files fs !! location with
                | Some (Some document) => Return (loaded_persona document)
                | Some None => Raise JSONDecodeError
                | None => Raise OSError
                end
       | None => Raise OSError
       end;
     json_dump := fun fs path persona =>
       match locate fs path with
       | Some location =>
           if is_dir fs location then Raise OSError
           else Return {| cwd := cwd fs;
                          dirs := dirs fs;
                          files := <[location := Some persona]> (files fs) |}
       | None => Raise OSError
       end
  |}.

(** An empty working directory, and one with the directory of the
    personas. *)
Definition empty_fs : MemFS := {| cwd := []; dirs := ∅; files := ∅ |}.

Definition personas_fs : MemFS :=
  {| cwd := []; dirs := {[ [PERSONA_DIR] ]}; files := ∅ |}.

(** A file system in which the record of user_1 is not valid JSON. *)
Definition corrupt_fs : MemFS :=
  {| cwd := [];
     dirs := {[ [PERSONA_DIR] ]};
     files := {[ [PERSONA_DIR; "user_1_persona.json"] := None ]} |}.

(** A signal with the given message length and topics. *)
Definition example_signal (message_length : Z) (topics : list string)
  : BehavioralData :=
  {| typing_speed := "fast";
     emotion := {| polarity := 0.1; sentiment := "neutral" |};
     topics := topics;
     message_length := message_length |}.

(** The two turns of the topic scenario: python and rust, then python. *)
Definition python_rust_then_python : list BehavioralData :=
  [example_signal 4 ["python"; "rust"]; example_signal 2 ["python"]].

(** A signal whose typing speed label is not one of the analyzer's. *)
Definition unlabelled_signal : BehavioralData :=
  {| typing_speed := "instant";
     emotion := {| polarity := 0; sentiment := "neutral" |};
     topics := [];
     message_length := 1 |}.

(** A record as an edited file can hold it: twelve message lengths. *)
Definition overlong_persona : Persona :=
  {| user_id := "user_1";
     communication_style := "neutral";
     emotional_state :=
       {| current_sentiment := "neutral"; sentiment_history := [] |};
     behavioral_patterns :=
       {| avg_typing_speed := "moderate";
          speed_history := [];
          avg_message_length := PFloat 6.5;
          length_history := [1; 2; 3; 4; 5; 6; 7; 8; 9; 10; 11; 12] |};
     contextual_preferences := {| topic_interests := [] |};
     interaction_count := 12 |}.

(** ** Vocabulary of the statements *)

(** The clamping of a negative elapsed time that the specification
    describes; the code has no such step. *)
Definition clamp_elapsed (t : float) : float :=
  if (t <? 0)%float then 0%float else t.

(** How often [t] occurs in a list of topics. *)
Definition occurrences (t : string) (topics : list string) : Z :=
  Z.of_nat (count_occ string_dec topics t).

(** What a lookup gives after [n] more increments of a key. *)
Definition incremented (before : option Z) (n : Z) : option Z :=
  match before with
  | Some c => Some (c + n)
  | None => if n =? 0 then None else Some n
  end.

(** Whether a signal mentions the topic, and in how many signals it is
    mentioned. *)
Definition mentions (t : string) (s : BehavioralData) : bool :=
  existsb (String.eqb t) (topics s).

Definition signals_with_topic (t : string) (signals : list BehavioralData)
  : Z :=
  len (List.filter (mentions t) signals).

(** [a] has at least the count of [b]. *)
Definition count_ge (a b : string * Z) : Prop := b.2 <= a.2.

(** The line the summary prints for one topic. *)
Definition topic_line {str : PyStr} (item : string * Z) : string :=
  ("  - `" ++ str_capitalize item.1 ++ "`" ++ nl)%string.

(** The score [update_persona] appends to the speed history for a
    signal. *)
Definition speed_score (s : BehavioralData) : Z :=
  dict_get speed_map (typing_speed s) 2.

(** The three histories hold at most [HISTORY_LENGTH] entries. *)
Definition histories_within_limit (p : Persona) : Prop :=
  len (sentiment_history (emotional_state p)) <= HISTORY_LENGTH
  /\ len (speed_history (behavioral_patterns p)) <= HISTORY_LENGTH
  /\ len (length_history (behavioral_patterns p)) <= HISTORY_LENGTH.

(** The labels as the exact mean [sum / n] gives them, without floats:
    the mean against 3.5, 2.5 and 1.5, and against 30 and 10. *)
Definition exact_speed (sum n : Z) : string :=
  if 7 * n <? 2 * sum then "very_fast"
  else if 5 * n <? 2 * sum then "fast"
  else if 3 * n <? 2 * sum then "moderate"
  else "slow".

Definition exact_style (sum n : Z) : string :=
  if 30 * n <? sum then "detailed"
  else if sum <? 10 * n then "brief"
  else "neutral".

(** The integers from [lo] on, [count] of them. *)
Definition zrange (lo count : nat) : list Z := map Z.of_nat (seq lo count).

(** The code's labels agree with the exact ones for every history of one
    to ten entries with the sum in the range of the table. *)
Definition speed_table_ok : bool :=
  forallb (fun n => forallb (fun sum =>
     String.eqb (classify_speed (PFloat (int_truediv sum n)))
       (exact_speed sum n))
     (zrange 0 41)) (zrange 1 10).

Definition style_table_ok : bool :=
  forallb (fun n => forallb (fun sum =>
     String.eqb
       (classify_style (PFloat (py_round (int_truediv sum n) 1)))
       (exact_style sum n))
     (zrange 0 1001)) (zrange 1 10).

(** The keys of the topic dict, in dict order. *)
Definition topic_keys (p : Persona) : list string :=
  map fst (topic_interests (contextual_preferences p)).

(** The sum of the counts of a topic dict. *)
Definition total_count (d : list (string * Z)) : Z := py_sum (map snd d).

(** Whether a string has a whitespace character, and whether it has no
    other character. *)
Fixpoint has_space (s : string) : bool :=
  match s with
  | EmptyString => false
  | String c r => is_space c || has_space r
  end.

Fixpoint all_space (s : string) : bool :=
  match s with
  | EmptyString => true
  | String c r => is_space c && all_space r
  end.

(** A word: a non-empty string without whitespace. *)
Definition is_word (w : string) : Prop := w <> "" /\ has_space w = false.

(** Whether a string has a slash. *)
Fixpoint has_slash (s : string) : bool :=
  match s with
  | EmptyString => false
  | String c r => Ascii.eqb c "/" || has_slash r
  end.

(** The round trip of a persona through the store: the save returns, the
    load after it returns the persona, and so does the load after saving
    what was loaded. *)
Definition round_trip (fs : MemFS) (p : Persona) : Prop :=
  exists fs1 : MemFS,
    @save_persona MemFS mem_persistence fs p = Return fs1
    /\ @get_or_create_persona MemFS mem_persistence fs1 (user_id p)
       = Return (fs1, p)
    /\ exists fs2 : MemFS,
         @save_persona MemFS mem_persistence fs1 p = Return fs2
         /\ @get_or_create_persona MemFS mem_persistence fs2 (user_id p)
            = Return (fs2, p).

(** The persona of a result, without the file system. *)
Definition loaded {FS : Type} (r : result (FS * Persona)) : result Persona :=
  match r with
  | Return (_, persona) => Return persona
  | Raise e => Raise e
  end.

(** * Properties *)

(** ** The bounded histories *)

Lemma len_app_one {A : Type} (l : list A) (x : A) : len (l ++ [x]) = len l + 1.
Proof. unfold len. rewrite length_app. simpl. lia. Qed.

Lemma len_nonneg {A : Type} (l : list A) : 0 <= len l.
Proof. unfold len. lia. Qed.

Lemma len_tl {A : Type} (l : list A) : l <> [] -> len (tl l) = len l - 1.
Proof. destruct l; [congruence | intros _; unfold len; simpl; lia]. Qed.

Lemma append_capped_room {A : Type} (h : list A) (x : A) :
  len h < HISTORY_LENGTH -> append_capped h x = h ++ [x].
Proof.
  intros Hlt. unfold append_capped. rewrite len_app_one.
  destruct (Z.ltb_spec HISTORY_LENGTH (len h + 1)); [lia | reflexivity].
Qed.

Lemma append_capped_full {A : Type} (h : list A) (x : A) :
  HISTORY_LENGTH <= len h -> append_capped h x = tl h ++ [x].
Proof.
  intros Hge. unfold append_capped. rewrite len_app_one.
  destruct (Z.ltb_spec HISTORY_LENGTH (len h + 1)); [| lia].
  destruct h; [unfold HISTORY_LENGTH, len in Hge; simpl in Hge; lia |].
  reflexivity.
Qed.

Lemma len_append_capped {A : Type} (h : list A) (x : A) :
  len h <= HISTORY_LENGTH ->
  len (append_capped h x) = Z.min (len h + 1) HISTORY_LENGTH.
Proof.
  intros Hle. destruct (Z.eq_dec (len h) HISTORY_LENGTH) as [Heq | Hne].
  - rewrite append_capped_full by lia. rewrite len_app_one, len_tl.
    + lia.
    + intros ->. unfold HISTORY_LENGTH, len in Heq. simpl in Heq. lia.
  - rewrite append_capped_room by lia. rewrite len_app_one. lia.
Qed.

Lemma append_capped_not_nil {A : Type} (h : list A) (x : A) :
  append_capped h x <> [].
Proof.
  destruct (Z.lt_ge_cases (len h) HISTORY_LENGTH) as [Hlt | Hge].
  - rewrite append_capped_room by assumption. destruct h; discriminate.
  - rewrite append_capped_full by lia. destruct (tl h); discriminate.
Qed.

Lemma update_all_snoc (p : Persona) (signals : list BehavioralData)
  (s : BehavioralData) :
  update_all p (signals ++ [s]) = update_persona (update_all p signals) s.
Proof. unfold update_all. rewrite fold_left_app. reflexivity. Qed.

(** The length history after a run of updates is a function of the message
    lengths alone. *)
Lemma length_history_update_all (p : Persona) (signals : list BehavioralData) :
  length_history (behavioral_patterns (update_all p signals))
  = fold_left append_capped (map message_length signals)
      (length_history (behavioral_patterns p)).
Proof.
  unfold update_all. revert p.
  induction signals as [| s signals IH]; intros p; [reflexivity |].
  simpl. rewrite IH. reflexivity.
Qed.

Lemma avg_message_length_update_all (p : Persona)
  (signals : list BehavioralData) :
  signals <> [] ->
  avg_message_length (behavioral_patterns (update_all p signals))
  = rounded_mean_length
      (length_history (behavioral_patterns (update_all p signals))).
Proof.
  intros Hne. destruct (exists_last Hne) as (front & s & ->).
  rewrite update_all_snoc. reflexivity.
Qed.

(** C1. After any sequence of N updates of a newly created persona, each of
    the three histories holds min(N, 10) entries and the interaction count
    is N. *)
Theorem histories_have_min_n_10_entries (user_id : string)
  (signals : list BehavioralData) :
  let p := update_all (new_persona_dict user_id) signals in
  len (sentiment_history (emotional_state p)) = Z.min (len signals) 10
  /\ len (speed_history (behavioral_patterns p)) = Z.min (len signals) 10
  /\ len (length_history (behavioral_patterns p)) = Z.min (len signals) 10
  /\ interaction_count p = len signals.
Proof.
  induction signals as [| s signals IH] using rev_ind.
  - simpl. repeat split.
  - rewrite update_all_snoc. cbv zeta in IH.
    destruct IH as (Hs & Hv & Hl & Hc).
    set (p := update_all (new_persona_dict user_id) signals) in *.
    rewrite len_app_one. simpl.
    pose proof (len_nonneg signals) as Hn.
    rewrite !len_append_capped by (unfold HISTORY_LENGTH; lia).
    unfold HISTORY_LENGTH. repeat split; lia.
Qed.

(** C2. After every update the average message length is the mean of the
    length history rounded to one decimal, the history being the old one
    with the new length appended and, when that exceeds ten entries, its
    oldest entry dropped; and eleven updates of a new persona with message
    lengths 1 to 11 leave the history 2 to 11 and the average 6.5. *)
Theorem avg_message_length_is_rounded_mean :
  (forall (p : Persona) (s : BehavioralData),
      let old := length_history (behavioral_patterns p) in
      let history := length_history (behavioral_patterns (update_persona p s)) in
      avg_message_length (behavioral_patterns (update_persona p s))
      = PFloat (py_round (int_truediv (py_sum history) (len history)) 1)
      /\ history = (if 10 <? len old + 1
                    then tl old ++ [message_length s]
                    else old ++ [message_length s]))
  /\ (forall (user_id : string) (signals : list BehavioralData),
      map message_length signals = [1; 2; 3; 4; 5; 6; 7; 8; 9; 10; 11] ->
      let p := update_all (new_persona_dict user_id) signals in
      length_history (behavioral_patterns p) = [2; 3; 4; 5; 6; 7; 8; 9; 10; 11]
      /\ avg_message_length (behavioral_patterns p) = PFloat 6.5).
Proof.
  split.
  - intros p s old history. split.
    + subst history old. simpl.
      pose proof (append_capped_not_nil
                    (length_history (behavioral_patterns p))
                    (message_length s)) as Hne.
      unfold rounded_mean_length.
      destruct (append_capped _ _); [congruence | reflexivity].
    + subst history. simpl. fold old.
      destruct (Z.ltb_spec 10 (len old + 1)).
      * apply append_capped_full. unfold HISTORY_LENGTH. lia.
      * apply append_capped_room. unfold HISTORY_LENGTH. lia.
  - intros user_id signals Hlengths. cbv zeta.
    assert (Hhist :
      length_history
        (behavioral_patterns (update_all (new_persona_dict user_id) signals))
      = [2; 3; 4; 5; 6; 7; 8; 9; 10; 11]).
    { rewrite length_history_update_all, Hlengths. reflexivity. }
    split; [exact Hhist |].
    rewrite avg_message_length_update_all.
    + rewrite Hhist. vm_compute. reflexivity.
    + intros ->. discriminate Hlengths.
Qed.

Lemma avg_message_length_is_rounded_mean_witness :
  let signals := map (fun n => example_signal n []) [1; 2; 3; 4; 5; 6; 7; 8; 9; 10; 11] in
  let p := update_all (new_persona_dict "user_1") signals in
  length_history (behavioral_patterns p) = [2; 3; 4; 5; 6; 7; 8; 9; 10; 11]
  /\ avg_message_length (behavioral_patterns p) = PFloat 6.5.
Proof.
  exact (proj2 avg_message_length_is_rounded_mean "user_1"
           (map (fun n => example_signal n []) [1; 2; 3; 4; 5; 6; 7; 8; 9; 10; 11])
           eq_refl).
Defined.

(** ** The order on floats *)

Lemma SFcompare_swap (x y : spec_float) :
  SFcompare y x = option_map CompOpp (SFcompare x y).
Proof.
  destruct x as [sx | sx | | sx mx ex], y as [sy | sy | | sy my ey];
    simpl; try reflexivity;
    try (destruct sx; reflexivity); try (destruct sy; reflexivity);
    try (destruct sx, sy; reflexivity).
  destruct sx, sy; simpl; try reflexivity;
    change (Pos.compare_cont Eq my mx) with (my ?= mx)%positive;
    change (Pos.compare_cont Eq mx my) with (mx ?= my)%positive;
    rewrite (Z.compare_antisym ex ey), (Pos.compare_antisym mx my);
    destruct (ex ?= ey); simpl; try reflexivity;
    destruct (mx ?= my)%positive; reflexivity.
Qed.

Lemma SFleb_not_ltb (x y : spec_float) :
  SFleb x y = true -> SFltb y x = false.
Proof.
  unfold SFleb, SFltb. rewrite (SFcompare_swap x y).
  destruct (SFcompare x y) as [[]|]; simpl; congruence.
Qed.

Lemma SFltb_finite (s : bool) (m1 m2 : positive) (e1 e2 : Z) :
  SFltb (S754_finite s m1 e1) (S754_finite s m2 e2) = true <->
  if s then (e2 < e1 \/ e2 = e1 /\ (m2 < m1)%positive)
  else (e1 < e2 \/ e1 = e2 /\ (m1 < m2)%positive).
Proof.
  unfold SFltb, SFcompare. change (Pos.compare_cont Eq m1 m2) with (m1 ?= m2)%positive.
  destruct s; destruct (Z.compare_spec e1 e2); destruct (Pos.compare_spec m1 m2);
    simpl; split; intros; try discriminate; try reflexivity; lia.
Qed.

Lemma SFleb_finite (s : bool) (m1 m2 : positive) (e1 e2 : Z) :
  SFleb (S754_finite s m1 e1) (S754_finite s m2 e2) = true <->
  if s then (e2 < e1 \/ e2 = e1 /\ (m2 <= m1)%positive)
  else (e1 < e2 \/ e1 = e2 /\ (m1 <= m2)%positive).
Proof.
  unfold SFleb, SFcompare.
  change (Pos.compare_cont Eq m1 m2) with (m1 ?= m2)%positive.
  destruct s; destruct (Z.compare_spec e1 e2); destruct (Pos.compare_spec m1 m2);
    simpl; split; intros; try discriminate; try reflexivity; lia.
Qed.

Lemma SFltb_trans (x y z : spec_float) :
  SFltb x y = true -> SFltb y z = true -> SFltb x z = true.
Proof.
  destruct x as [sx | sx | | sx mx ex], y as [sy | sy | | sy my ey],
    z as [sz | sz | | sz mz ez];
    try (unfold SFltb; simpl; repeat match goal with s : bool |- _ => destruct s end;
         simpl; congruence).
  destruct sx, sy, sz; try (unfold SFltb; simpl; congruence);
    rewrite !SFltb_finite; lia.
Qed.

Lemma ltb_trans (a b c : float) :
  (a <? b)%float = true -> (b <? c)%float = true -> (a <? c)%float = true.
Proof. rewrite !ltb_spec. apply SFltb_trans. Qed.

Lemma leb_not_ltb (a b : float) :
  (a <=? b)%float = true -> (b <? a)%float = false.
Proof. rewrite leb_spec, ltb_spec. apply SFleb_not_ltb. Qed.

(** Below [b] there is nothing that is at least some [c] above [b]. *)
Lemma ltb_below (t b c : float) :
  (b <? c)%float = true -> (c <=? t)%float = true -> (t <? b)%float = false.
Proof.
  intros Hbc Hct. destruct (t <? b)%float eqn:Htb; [| reflexivity].
  pose proof (ltb_trans t b c Htb Hbc) as Hlt.
  pose proof (leb_not_ltb c t Hct) as Hge. congruence.
Qed.

(** C3. The typing speed returned by [analyze_behavior] is very_fast on
    [0, 2), fast on [2, 5), moderate on [5, 15) and slow from 15 on, each
    bound belonging to the interval it opens (0 is very_fast, 2 fast,
    5 moderate and 15 slow); a negative elapsed time gives very_fast, the
    same result as the elapsed time clamped to 0. The function is total, so
    no input raises. *)
Theorem typing_speed_buckets {blob : TextBlob} {order : SetIteration}
  {str : PyStr} (text : string) (t : float) :
  let speed := typing_speed (analyze_behavior text t) in
  ((0 <=? t)%float = true -> (t <? 2)%float = true -> speed = "very_fast")
  /\ ((2 <=? t)%float = true -> (t <? 5)%float = true -> speed = "fast")
  /\ ((5 <=? t)%float = true -> (t <? 15)%float = true -> speed = "moderate")
  /\ ((15 <=? t)%float = true -> speed = "slow")
  /\ ((t <? 0)%float = true -> speed = "very_fast")
  /\ speed = typing_speed (analyze_behavior text (clamp_elapsed t))
  /\ typing_speed (analyze_behavior text 0) = "very_fast"
  /\ typing_speed (analyze_behavior text 2) = "fast"
  /\ typing_speed (analyze_behavior text 5) = "moderate"
  /\ typing_speed (analyze_behavior text 15) = "slow".
Proof.
  cbv zeta. simpl typing_speed. unfold analyze_typing_speed.
  change (float_of_int 2) with 2%float.
  change (float_of_int 5) with 5%float.
  change (float_of_int 15) with 15%float.
  assert (H02 : (0 <? 2)%float = true) by reflexivity.
  assert (H25 : (2 <? 5)%float = true) by reflexivity.
  assert (H215 : (2 <? 15)%float = true) by reflexivity.
  assert (H515 : (5 <? 15)%float = true) by reflexivity.
  repeat split.
  - intros _ ->. reflexivity.
  - intros H2 ->. rewrite (leb_not_ltb _ _ H2). reflexivity.
  - intros H5 ->.
    rewrite (ltb_below t 2 5 H25 H5), (leb_not_ltb _ _ H5). reflexivity.
  - intros H15.
    rewrite (ltb_below t 2 15 H215 H15), (ltb_below t 5 15 H515 H15),
      (leb_not_ltb _ _ H15).
    reflexivity.
  - intros Hneg. rewrite (ltb_trans t 0 2 Hneg H02). reflexivity.
  - unfold clamp_elapsed. destruct (t <? 0)%float eqn:Hneg; [| reflexivity].
    rewrite (ltb_trans t 0 2 Hneg H02). reflexivity.
Qed.

Lemma typing_speed_buckets_witness :
  typing_speed (@analyze_behavior (all_nouns 0) kept_order ascii_str
                  "hello there" 5)
  = "moderate".
Proof.
  exact (proj1 (proj2 (proj2
    (@typing_speed_buckets (all_nouns 0) kept_order ascii_str
       "hello there" 5)))
    eq_refl eq_refl).
Defined.

(** ** The sentiment label *)

(** C4. The label of [detect_emotion] is positive exactly when the polarity
    of the classifier is above 0.3, negative exactly when it is below -0.3
    and neutral otherwise; a polarity of exactly 0.3 or -0.3 is neutral. *)
Theorem sentiment_label_thresholds {blob : TextBlob} (text : string) :
  let p := sentiment_polarity text in
  let label := sentiment (detect_emotion text) in
  (label = "positive" <-> (0.3 <? p)%float = true)
  /\ (label = "negative" <-> (p <? - 0.3)%float = true)
  /\ (label = "neutral" <->
      (0.3 <? p)%float = false /\ (p <? - 0.3)%float = false)
  /\ (p = 0.3%float -> label = "neutral")
  /\ (p = (- 0.3)%float -> label = "neutral").
Proof.
  cbv zeta. simpl sentiment. unfold sentiment_label.
  assert (Hexcl : (0.3 <? sentiment_polarity text)%float = true ->
                  (sentiment_polarity text <? - 0.3)%float = true -> False).
  { intros Hhi Hlo. pose proof (ltb_trans _ _ _ Hhi Hlo) as Habs.
    vm_compute in Habs. discriminate Habs. }
  repeat split.
  - destruct (0.3 <? _)%float; [reflexivity |].
    destruct (_ <? - 0.3)%float; discriminate.
  - intros ->. reflexivity.
  - destruct (0.3 <? _)%float; [discriminate |].
    destruct (_ <? - 0.3)%float; [reflexivity | discriminate].
  - intros Hlo. destruct (0.3 <? _)%float eqn:Hhi.
    + destruct (Hexcl eq_refl Hlo).
    + rewrite Hlo. reflexivity.
  - destruct (0.3 <? _)%float; [discriminate | reflexivity].
  - destruct (0.3 <? _)%float; [discriminate |].
    destruct (_ <? - 0.3)%float; [discriminate | reflexivity].
  - intros [-> ->]. reflexivity.
  - intros ->. reflexivity.
  - intros ->. reflexivity.
Qed.

Lemma sentiment_label_thresholds_witness :
  sentiment (@detect_emotion (all_nouns 0.3) "a fair result") = "neutral".
Proof.
  exact (proj1 (proj2 (proj2 (proj2
    (@sentiment_label_thresholds (all_nouns 0.3) "a fair result"))))
    eq_refl).
Defined.

(** ** Rounding to two decimals next to the thresholds *)

Lemma round_half_even_between (num den q : Z) :
  0 < den -> q * den <= num -> 2 * num < (2 * q + 1) * den ->
  round_half_even num den = q.
Proof.
  intros Hden Hlo Hhi. unfold round_half_even.
  assert (Hq : num / den = q).
  { symmetry. apply (Z.div_unique num den q (num - q * den)); lia. }
  assert (Hr : num mod den = num - q * den).
  { symmetry. apply (Z.mod_unique num den q (num - q * den)); lia. }
  rewrite Hq, Hr.
  destruct (Z.compare_spec (2 * (num - q * den)) den); [lia | reflexivity | lia].
Qed.

(** The doubles 0.3 and 0.305, and what lies between them: the exponent is
    that of 0.3 and the mantissa lies between the two mantissas. *)
Lemma prim_0_3 : Prim2SF 0.3 = S754_finite false 5404319552844595 (-54).
Proof. vm_compute. reflexivity. Qed.

Lemma prim_0_305 : Prim2SF 0.305 = S754_finite false 5494391545392005 (-54).
Proof. vm_compute. reflexivity. Qed.

Lemma between_0_3_and_0_305 (s : bool) (m : positive) (e : Z) :
  (-54 < e \/ -54 = e /\ (5404319552844595 < m)%positive) ->
  (e < -54 \/ e = -54 /\ (m <= 5494391545392005)%positive) ->
  e = -54 /\ 5404319552844595 < Z.pos m <= 5494391545392005.
Proof.
  intros [Hlo | [Hlo Hm1]] [Hhi | [Hhi Hm2]].
  - lia.
  - clear Hm2. lia.
  - clear Hm1. lia.
  - apply Pos2Z.pos_lt_pos in Hm1. apply Pos2Z.pos_le_pos in Hm2.
    split; [symmetry; exact Hlo | split; assumption].
Qed.

(** A mantissa in that range, scaled by 100, rounds to 30 hundredths. *)
Lemma thirty_hundredths (z : Z) :
  5404319552844595 < z <= 5494391545392005 ->
  round_half_even (z * 10 ^ Z.of_nat 2) (2 ^ (- -54)) = 30.
Proof.
  intros Hz. change (10 ^ Z.of_nat 2) with 100.
  change (2 ^ (- -54)) with 18014398509481984.
  apply round_half_even_between; lia.
Qed.

(** Every polarity above 0.3 and up to 0.305 is rounded to 0.3. *)
Lemma py_round_just_above_0_3 (p : float) :
  (0.3 <? p)%float = true -> (p <=? 0.305)%float = true ->
  py_round p 2 = 0.3%float.
Proof.
  rewrite ltb_spec, leb_spec, prim_0_3, prim_0_305. unfold py_round.
  destruct (Prim2SF p) as [s | s | | s m e].
  - intros H; discriminate H.
  - destruct s; intros H1 H2; [discriminate H1 | discriminate H2].
  - intros H; discriminate H.
  - destruct s; [intros H; discriminate H |].
    rewrite SFltb_finite, SFleb_finite. intros Hlo Hhi.
    destruct (between_0_3_and_0_305 false m e Hlo Hhi) as [-> Hm].
    change (323 <? Z.of_nat 2) with false. change (0 <=? -54) with false.
    cbv beta iota zeta. rewrite (thirty_hundredths _ Hm).
    vm_compute. reflexivity.
Qed.

(** Every polarity below -0.3 and down to -0.305 is rounded to -0.3. *)
Lemma py_round_just_below_minus_0_3 (p : float) :
  (- 0.305 <=? p)%float = true -> (p <? - 0.3)%float = true ->
  py_round p 2 = (- 0.3)%float.
Proof.
  rewrite ltb_spec, leb_spec.
  change (Prim2SF (- 0.3)) with (S754_finite true 5404319552844595 (-54)).
  change (Prim2SF (- 0.305)) with (S754_finite true 5494391545392005 (-54)).
  unfold py_round.
  destruct (Prim2SF p) as [s | s | | s m e].
  - intros _ H; discriminate H.
  - destruct s; intros H1 H2; [discriminate H1 | discriminate H2].
  - intros H; discriminate H.
  - destruct s; [| intros _ H; discriminate H].
    rewrite SFltb_finite, SFleb_finite. intros Hlo Hhi.
    destruct (between_0_3_and_0_305 true m e Hhi Hlo) as [-> Hm].
    change (323 <? Z.of_nat 2) with false. change (0 <=? -54) with false.
    cbv beta iota zeta. rewrite (thirty_hundredths _ Hm).
    vm_compute. reflexivity.
Qed.

(** C10. The label of [detect_emotion] is computed from the polarity as the
    classifier gives it, and the polarity field is that polarity rounded to
    two decimals. So whenever the classifier scores a text above 0.3 and up
    to 0.305, the signal carries the polarity 0.3 with the label positive
    (and between -0.305 and -0.3 the polarity -0.3 with the label
    negative), although the thresholds applied to the field give neutral;
    and there are such scores. *)
Theorem label_not_derivable_from_rounded_polarity :
  (forall (blob : TextBlob) (text : string),
      sentiment (detect_emotion text) = sentiment_label (sentiment_polarity text)
      /\ polarity (detect_emotion text) = py_round (sentiment_polarity text) 2)
  /\ (forall (blob : TextBlob) (text : string),
      (0.3 <? sentiment_polarity text)%float = true ->
      (sentiment_polarity text <=? 0.305)%float = true ->
      polarity (detect_emotion text) = 0.3%float
      /\ sentiment (detect_emotion text) = "positive"
      /\ sentiment_label (polarity (detect_emotion text)) = "neutral")
  /\ (forall (blob : TextBlob) (text : string),
      (- 0.305 <=? sentiment_polarity text)%float = true ->
      (sentiment_polarity text <? - 0.3)%float = true ->
      polarity (detect_emotion text) = (- 0.3)%float
      /\ sentiment (detect_emotion text) = "negative"
      /\ sentiment_label (polarity (detect_emotion text)) = "neutral")
  /\ (exists (blob : TextBlob) (text : string),
         polarity (detect_emotion text) = 0.3%float
         /\ sentiment (detect_emotion text) = "positive")
  /\ (exists (blob : TextBlob) (text : string),
         polarity (detect_emotion text) = (- 0.3)%float
         /\ sentiment (detect_emotion text) = "negative").
Proof.
  split; [| split; [| split; [| split]]].
  - intros blob text. split; reflexivity.
  - intros blob text Hlo Hhi. simpl.
    rewrite (py_round_just_above_0_3 _ Hlo Hhi).
    unfold sentiment_label at 1. rewrite Hlo. repeat split.
  - intros blob text Hlo Hhi. simpl.
    rewrite (py_round_just_below_minus_0_3 _ Hlo Hhi).
    unfold sentiment_label at 1. rewrite Hhi.
    destruct (0.3 <? sentiment_polarity text)%float eqn:Hpos; [| repeat split].
    pose proof (ltb_trans _ _ _ Hpos Hhi) as Habs.
    vm_compute in Habs. discriminate Habs.
  - exists (all_nouns 0.304), "quite nice". split; vm_compute; reflexivity.
  - exists (all_nouns (- 0.304)), "rather poor". split; vm_compute; reflexivity.
Qed.

Lemma label_not_derivable_from_rounded_polarity_witness :
  polarity (@detect_emotion (all_nouns 0.304) "quite nice") = 0.3%float
  /\ sentiment (@detect_emotion (all_nouns 0.304) "quite nice") = "positive"
  /\ sentiment_label (polarity (@detect_emotion (all_nouns 0.304) "quite nice"))
     = "neutral".
Proof.
  exact (proj1 (proj2 label_not_derivable_from_rounded_polarity)
           (all_nouns 0.304) "quite nice" eq_refl eq_refl).
Defined.

(** ** Topic counts *)

Section DictFacts.
Context {V : Type}.

Lemma dict_lookup_set_same (d : list (string * V)) (k : string) (v : V) :
  dict_lookup (dict_set d k v) k = Some v.
Proof.
  induction d as [| [k' v'] d IH]; simpl.
  - rewrite String.eqb_refl. reflexivity.
  - destruct (String.eqb k' k) eqn:Hk; simpl; rewrite Hk; [reflexivity | exact IH].
Qed.

Lemma dict_lookup_set_other (d : list (string * V)) (k k' : string) (v : V) :
  k <> k' -> dict_lookup (dict_set d k v) k' = dict_lookup d k'.
Proof.
  intros Hne. induction d as [| [k0 v0] d IH]; simpl.
  - destruct (String.eqb_spec k k'); [contradiction | reflexivity].
  - destruct (String.eqb_spec k0 k) as [-> | Hk0]; simpl.
    + destruct (String.eqb_spec k k'); [contradiction | reflexivity].
    + rewrite IH. reflexivity.
Qed.

(** Setting a key keeps the keys in place and adds a new key at the end. *)
Lemma dict_set_keys (d : list (string * V)) (k : string) (v : V) :
  map fst (dict_set d k v)
  = if existsb (String.eqb k) (map fst d) then map fst d else map fst d ++ [k].
Proof.
  induction d as [| [k' v'] d IH]; simpl; [reflexivity |].
  rewrite (String.eqb_sym k k').
  destruct (String.eqb k' k); simpl; [reflexivity |].
  rewrite IH. destruct (existsb _ _); reflexivity.
Qed.

End DictFacts.

Lemma incremented_twice (before : option Z) (n m : Z) :
  0 <= n -> 0 <= m ->
  incremented (incremented before n) m = incremented before (n + m).
Proof.
  intros Hn Hm. destruct before as [c |]; simpl.
  - f_equal. lia.
  - destruct (Z.eqb_spec n 0) as [-> | Hn0]; simpl.
    + reflexivity.
    + destruct (Z.eqb_spec (n + m) 0); [lia | reflexivity].
Qed.

Lemma count_topics_lookup (topics : list string) (d : list (string * Z))
  (t : string) :
  dict_lookup (count_topics d topics) t
  = incremented (dict_lookup d t) (occurrences t topics).
Proof.
  revert d. induction topics as [| x topics IH]; intros d.
  - unfold occurrences. simpl.
    destruct (dict_lookup d t); simpl; [f_equal; lia | reflexivity].
  - change (count_topics d (x :: topics))
      with (count_topics (dict_set d x (dict_get d x 0 + 1)) topics).
    rewrite IH. unfold occurrences. simpl count_occ.
    destruct (string_dec x t) as [-> | Hne].
    + rewrite dict_lookup_set_same. unfold dict_get.
      destruct (dict_lookup d t) as [c |]; simpl.
      * f_equal. lia.
      * destruct (Z.eqb_spec (Z.of_nat (S (count_occ string_dec topics t))) 0);
          [lia | f_equal; lia].
    + rewrite dict_lookup_set_other by assumption. reflexivity.
Qed.

Lemma occurrences_nodup (t : string) (topics : list string) :
  NoDup topics ->
  occurrences t topics = if existsb (String.eqb t) topics then 1 else 0.
Proof.
  intros Hnd. apply NoDup_ListNoDup in Hnd. unfold occurrences.
  destruct (existsb (String.eqb t) topics) eqn:Hex.
  - apply existsb_exists in Hex. destruct Hex as (x & Hin & Heq).
    apply String.eqb_eq in Heq. subst x.
    apply (proj1 (NoDup_count_occ' string_dec topics) Hnd) in Hin.
    rewrite Hin. reflexivity.
  - assert (Hnin : ~ In t topics).
    { intros Hin.
      assert (existsb (String.eqb t) topics = true) as Habs
        by (apply existsb_exists; exists t; split;
            [exact Hin | apply String.eqb_refl]).
      congruence. }
    apply (count_occ_not_In string_dec) in Hnin. rewrite Hnin. reflexivity.
Qed.

Lemma topic_interests_update_all (signals : list BehavioralData)
  (p : Persona) (t : string) :
  Forall (fun s => NoDup (topics s)) signals ->
  dict_lookup (topic_interests (contextual_preferences (update_all p signals))) t
  = incremented (dict_lookup (topic_interests (contextual_preferences p)) t)
      (signals_with_topic t signals).
Proof.
  unfold update_all, signals_with_topic. intros Hnd. revert p.
  induction Hnd as [| s signals Hs Hnd IH]; intros p.
  - unfold len. simpl.
    destruct (dict_lookup _ t); simpl; [f_equal; lia | reflexivity].
  - simpl fold_left. rewrite IH. simpl topic_interests.
    rewrite count_topics_lookup, (occurrences_nodup t _ Hs).
    rewrite incremented_twice.
    + f_equal. simpl List.filter. unfold mentions at 2.
      destruct (existsb (String.eqb t) (topics s)); unfold len; simpl; lia.
    + destruct (existsb _ _); lia.
    + apply len_nonneg.
Qed.

(** C5. For every topic and every sequence of updates with deduplicated
    topic lists, the count stored for the topic grows by exactly the number
    of signals that mention it, whatever the length of the sequence; from a
    new persona it is that number, and the topic is absent from the dict
    exactly when no signal mentioned it. *)
Theorem topic_interests_count_signals (signals : list BehavioralData)
  (t : string) :
  Forall (fun s => NoDup (topics s)) signals ->
  (forall p : Persona,
      dict_get (topic_interests (contextual_preferences (update_all p signals)))
        t 0
      = dict_get (topic_interests (contextual_preferences p)) t 0
        + signals_with_topic t signals)
  /\ (forall user_id : string,
      let d := topic_interests (contextual_preferences
                 (update_all (new_persona_dict user_id) signals)) in
      dict_get d t 0 = signals_with_topic t signals
      /\ (dict_lookup d t = None <-> signals_with_topic t signals = 0)
      /\ (dict_lookup d t = None <-> Forall (fun s => t ∉ topics s) signals)).
Proof.
  intros Hnd.
  assert (Hcount : 0 <= signals_with_topic t signals) by apply len_nonneg.
  split.
  - intros p. unfold dict_get.
    rewrite (topic_interests_update_all signals p t Hnd).
    destruct (dict_lookup _ t); simpl; [reflexivity |].
    destruct (Z.eqb_spec (signals_with_topic t signals) 0); lia.
  - intros user_id d. subst d. unfold dict_get.
    rewrite (topic_interests_update_all signals _ t Hnd). simpl.
    destruct (Z.eqb_spec (signals_with_topic t signals) 0) as [Hz | Hnz].
    + repeat split; try congruence; intros _.
      unfold signals_with_topic, len in Hz.
      assert (Hnil : List.filter (mentions t) signals = [])
        by (destruct (List.filter _ _); [reflexivity | simpl in Hz; lia]).
      apply List.Forall_forall. intros s Hs Hin. apply list_elem_of_In in Hin.
      assert (Hm : In s (List.filter (mentions t) signals)).
      { apply filter_In. split; [exact Hs |].
        apply existsb_exists. exists t. split; [exact Hin | apply String.eqb_refl]. }
      rewrite Hnil in Hm. destruct Hm.
    + repeat split; try congruence; try discriminate.
      intros Hall. exfalso. apply Hnz.
      unfold signals_with_topic, len.
      assert (Hnil : List.filter (mentions t) signals = []).
      { destruct (List.filter (mentions t) signals) as [| s l] eqn:Hf;
          [reflexivity |].
        assert (Hin : In s (List.filter (mentions t) signals))
          by (rewrite Hf; left; reflexivity).
        apply filter_In in Hin. destruct Hin as [Hs Hm].
        apply existsb_exists in Hm. destruct Hm as (x & Hx & Heq).
        apply String.eqb_eq in Heq. subst x.
        rewrite List.Forall_forall in Hall. apply list_elem_of_In in Hx.
        destruct (Hall s Hs Hx). }
      rewrite Hnil. reflexivity.
Qed.

Lemma topic_interests_count_signals_witness :
  dict_get
    (topic_interests (contextual_preferences
       (update_all (new_persona_dict "user_1") python_rust_then_python)))
    "python" 0
  = 2.
Proof.
  refine (proj1 (proj2 (topic_interests_count_signals
                          python_rust_then_python "python" _) "user_1")).
  refine (bool_decide_unpack _ _). vm_compute. exact I.
Defined.

(** ** The top topics *)

Lemma insert_by_count_perm (x : string * Z) (l : list (string * Z)) :
  insert_by_count x l ≡ₚ x :: l.
Proof.
  induction l as [| y l IH]; simpl; [reflexivity |].
  destruct (x.2 <? y.2); [| reflexivity].
  rewrite IH. apply perm_swap.
Qed.

Lemma sorted_by_count_perm (l : list (string * Z)) : sorted_by_count l ≡ₚ l.
Proof.
  induction l as [| x l IH]; simpl; [reflexivity |].
  rewrite insert_by_count_perm, IH. reflexivity.
Qed.

Lemma insert_by_count_sorted (x : string * Z) (l : list (string * Z)) :
  StronglySorted count_ge l -> StronglySorted count_ge (insert_by_count x l).
Proof.
  induction l as [| y l IH]; intros Hs; simpl.
  - repeat constructor.
  - apply StronglySorted_cons in Hs. destruct Hs as [Hy Hs].
    destruct (Z.ltb_spec x.2 y.2) as [Hlt | Hge].
    + apply StronglySorted_cons. split; [| apply IH, Hs].
      rewrite insert_by_count_perm. constructor; [unfold count_ge; lia | exact Hy].
    + apply StronglySorted_cons. split.
      * constructor; [exact Hge |].
        eapply Forall_impl; [exact Hy |]. unfold count_ge. intros z Hz. lia.
      * apply StronglySorted_cons. split; assumption.
Qed.

Lemma sorted_by_count_sorted (l : list (string * Z)) :
  StronglySorted count_ge (sorted_by_count l).
Proof.
  induction l as [| x l IH]; simpl; [constructor |].
  apply insert_by_count_sorted, IH.
Qed.

(** Insertion keeps the items of one count in their order: the new item,
    which stood in front of the others, stays in front of them. *)
Lemma insert_by_count_filter (c : Z) (x : string * Z) (l : list (string * Z)) :
  filter (λ y, y.2 = c) (insert_by_count x l) = filter (λ y, y.2 = c) (x :: l).
Proof.
  induction l as [| y l IH]; simpl; [reflexivity |].
  destruct (Z.ltb_spec x.2 y.2) as [Hlt | Hge]; [| reflexivity].
  rewrite (filter_cons _ y), IH, !filter_cons.
  destruct (decide (y.2 = c)), (decide (x.2 = c)); try reflexivity; lia.
Qed.

Lemma sorted_by_count_stable (c : Z) (l : list (string * Z)) :
  filter (λ y, y.2 = c) (sorted_by_count l) = filter (λ y, y.2 = c) l.
Proof.
  induction l as [| x l IH]; simpl; [reflexivity |].
  rewrite insert_by_count_filter, !filter_cons, IH. reflexivity.
Qed.

Lemma sublist_filter_mono {A : Type} (P : A -> Prop) `{!∀ x, Decision (P x)}
  (l k : list A) :
  l `sublist_of` k -> filter P l `sublist_of` filter P k.
Proof.
  induction 1 as [| x l k Hlk IH | x l k Hlk IH]; [constructor | |].
  - rewrite !filter_cons. destruct (decide (P x)); [constructor |]; exact IH.
  - rewrite filter_cons. destruct (decide (P x)); [constructor |]; exact IH.
Qed.

Lemma sorted_pair {A : Type} (R : relation A) (l : list A) (a b : A) :
  StronglySorted R l -> [a; b] `sublist_of` l -> R a b.
Proof.
  induction 1 as [| x l Hs IH Hx]; intros Hsub.
  - apply sublist_nil_r in Hsub. discriminate.
  - apply sublist_cons_r in Hsub. destruct Hsub as [Hsub | (l' & Heq & Hsub)].
    + apply IH, Hsub.
    + injection Heq as -> <-.
      rewrite List.Forall_forall in Hx. apply Hx.
      apply list_elem_of_In. eapply elem_of_sublist; [| exact Hsub]. left.
Qed.

Lemma append_assoc (a b c : string) : ((a ++ b) ++ c = a ++ (b ++ c))%string.
Proof.
  induction a as [| ch a IH]; [reflexivity |].
  change (String ch ((a ++ b) ++ c) = String ch (a ++ (b ++ c)))%string.
  f_equal. exact IH.
Qed.

Lemma append_nil_r (a : string) : (a ++ "")%string = a.
Proof.
  induction a as [| ch a IH]; [reflexivity |].
  change (String ch (a ++ "") = String ch a)%string. f_equal. exact IH.
Qed.

Lemma concat_cons (x : string) (l : list string) :
  String.concat "" (x :: l) = (x ++ String.concat "" l)%string.
Proof. destruct l; simpl; [symmetry; apply append_nil_r | reflexivity]. Qed.

(** The topic lines follow the heading in the order of the list. *)
Lemma top_topics_text_lines {str : PyStr} (top : list (string * Z)) :
  top_topics_text top
  = ((nl ++ "- **Top Topics**:" ++ nl)
     ++ String.concat "" (map topic_line top))%string.
Proof.
  unfold top_topics_text.
  generalize (nl ++ "- **Top Topics**:" ++ nl)%string as heading.
  assert (Hfold : forall (l : list (string * Z)) (acc : string),
    fold_left
      (fun summary item =>
         (summary ++ "  - `" ++ str_capitalize item.1 ++ "`" ++ nl)%string)
      l acc
    = (acc ++ String.concat "" (map topic_line l))%string).
  { induction l as [| x l IH]; intros acc.
    - simpl. symmetry. apply append_nil_r.
    - cbn [fold_left map]. rewrite IH, concat_cons, append_assoc. reflexivity. }
  intros heading. apply Hfold.
Qed.

Lemma sorted_by_count_nil (l : list (string * Z)) :
  sorted_by_count l = [] <-> l = [].
Proof.
  split; [| intros ->; reflexivity].
  intros Hs. pose proof (sorted_by_count_perm l) as Hp. rewrite Hs in Hp.
  apply Permutation_nil in Hp. exact Hp.
Qed.

Lemma topic_interests_update_all_fold (p : Persona)
  (signals : list BehavioralData) :
  topic_interests (contextual_preferences (update_all p signals))
  = fold_left count_topics (map topics signals)
      (topic_interests (contextual_preferences p)).
Proof.
  unfold update_all. revert p.
  induction signals as [| s signals IH]; intros p; [reflexivity |].
  simpl. rewrite IH. reflexivity.
Qed.

Lemma pair_sublist_app {A : Type} (l1 l2 : list A) (a b : A) :
  a ∈ l1 -> b ∈ l2 -> [a; b] `sublist_of` l1 ++ l2.
Proof.
  intros Ha Hb. change [a; b] with ([a] ++ [b]).
  apply sublist_app; apply singleton_sublist_l; assumption.
Qed.

(** Two items of one count stand in the sorted list as they stand in the
    dict. *)
Lemma sorted_by_count_ties (l : list (string * Z)) (a b : string * Z) :
  [a; b] `sublist_of` sorted_by_count l -> a.2 = b.2 -> [a; b] `sublist_of` l.
Proof.
  intros Hsub Heq.
  apply (sublist_filter_mono (λ y, y.2 = b.2)) in Hsub.
  rewrite sorted_by_count_stable in Hsub.
  rewrite !filter_cons, filter_nil in Hsub.
  destruct (decide (a.2 = b.2)); [| contradiction].
  destruct (decide (b.2 = b.2)); [| congruence].
  etransitivity; [exact Hsub | apply sublist_filter].
Qed.

(** C6. The topic hint and the summary are built from the same top three
    topics: the first three of the items of the dict sorted by descending
    count, items of equal count in the order of their insertion into the
    dict (and an item left out has no larger count than a listed one, and
    with an equal count was inserted later); the hint is the empty string
    for an empty dict. After the topics python and rust and then python,
    the hint names python before rust, whichever order the first signal
    lists its two topics in. *)
Theorem top_topics_by_count_then_insertion :
  (forall (str : PyStr) (fmt : PyFormat) (p : Persona),
      let d := topic_interests (contextual_preferences p) in
      let top := top_topics d in
      topic_hint p
      = match d with
        | [] => ""
        | _ => ("The user is often interested in topics like "
                ++ join ", " (map fst top) ++ ".")%string
        end
      /\ get_persona_summary p
         = match d with
           | [] => summary_header p
           | _ => (summary_header p ++ (nl ++ "- **Top Topics**:" ++ nl)
                   ++ String.concat "" (map topic_line top))%string
           end
      /\ length top = Nat.min 3 (length d)
      /\ (forall a, a ∈ top -> a ∈ d)
      /\ (forall a b, [a; b] `sublist_of` top -> b.2 <= a.2)
      /\ (forall a b, [a; b] `sublist_of` top -> a.2 = b.2 ->
                      [a; b] `sublist_of` d)
      /\ (forall a b, a ∈ top -> b ∈ d -> b ∉ top ->
                      b.2 <= a.2 /\ (a.2 = b.2 -> [a; b] `sublist_of` d)))
  /\ (forall (user_id : string) (first second : BehavioralData),
      topics first ≡ₚ ["python"; "rust"] ->
      topics second = ["python"] ->
      topic_hint (update_all (new_persona_dict user_id) [first; second])
      = "The user is often interested in topics like python, rust.").
Proof.
  split.
  - intros str fmt p d top.
    pose proof (sorted_by_count_perm d) as Hperm.
    pose proof (sorted_by_count_sorted d) as Hsorted.
    assert (Htop : top `sublist_of` sorted_by_count d) by apply sublist_take.
    split; [| split; [| split; [| split; [| split; [| split]]]]].
    + unfold topic_hint. fold d.
      destruct d as [| x d']; [reflexivity |].
      subst top. unfold top_topics.
      destruct (sorted_by_count (x :: d')) eqn:Hs; [| reflexivity].
      apply (proj1 (sorted_by_count_nil _)) in Hs. discriminate Hs.
    + unfold get_persona_summary. fold d.
      destruct d as [| x d']; [reflexivity |].
      rewrite top_topics_text_lines. reflexivity.
    + subst top. unfold top_topics. rewrite length_take.
      rewrite (Permutation_length Hperm). reflexivity.
    + intros a Ha. rewrite <- Hperm. eapply elem_of_sublist; eassumption.
    + intros a b Hab. apply (sorted_pair count_ge (sorted_by_count d) a b Hsorted).
      etransitivity; eassumption.
    + intros a b Hab Heq. apply sorted_by_count_ties; [| exact Heq].
      etransitivity; eassumption.
    + intros a b Ha Hb Hnb.
      assert (Hdrop : b ∈ drop 3 (sorted_by_count d)).
      { rewrite <- Hperm, <- (take_drop 3 (sorted_by_count d)) in Hb.
        apply elem_of_app in Hb. destruct Hb as [Hb | Hb]; [contradiction | exact Hb]. }
      assert (Hab : [a; b] `sublist_of` sorted_by_count d).
      { rewrite <- (take_drop 3 (sorted_by_count d)).
        apply pair_sublist_app; assumption. }
      split.
      * apply (sorted_pair count_ge _ a b Hsorted Hab).
      * intros Heq. apply sorted_by_count_ties; assumption.
  - intros user_id first second Hfirst Hsecond.
    unfold topic_hint. rewrite topic_interests_update_all_fold.
    simpl map. rewrite Hsecond.
    apply Permutation_sym, Permutation_length_2_inv in Hfirst.
    destruct Hfirst as [-> | ->]; reflexivity.
Qed.

Lemma top_topics_by_count_then_insertion_witness :
  topic_hint (update_all (new_persona_dict "user_1") python_rust_then_python)
  = "The user is often interested in topics like python, rust.".
Proof.
  refine (proj2 top_topics_by_count_then_insertion "user_1"
            (example_signal 4 ["python"; "rust"])
            (example_signal 2 ["python"]) _ eq_refl).
  reflexivity.
Defined.

(** ** Determinism of the analysis *)

Lemma kept_order_lawful : set_iteration_lawful kept_order.
Proof.
  intros l. split; [apply NoDup_remove_dups | intros x; apply elem_of_remove_dups].
Qed.

Lemma reversed_order_lawful : set_iteration_lawful reversed_order.
Proof.
  intros l. simpl. split.
  - rewrite reverse_Permutation. apply NoDup_remove_dups.
  - intros x. rewrite elem_of_reverse. apply elem_of_remove_dups.
Qed.

Lemma occurrences_perm (t : string) (l k : list string) :
  l ≡ₚ k -> occurrences t l = occurrences t k.
Proof.
  intros Hperm. unfold occurrences. f_equal.
  apply (proj1 (Permutation_count_occ string_dec l k) Hperm).
Qed.

(** Under any iteration order the topics of a signal are deduplicated. *)
Lemma analyze_behavior_topics_nodup {blob : TextBlob} {order : SetIteration}
  {str : PyStr} (text : string) (t : float) :
  set_iteration_lawful order -> NoDup (topics (analyze_behavior text t)).
Proof. intros Hlaw. apply Hlaw. Qed.

(** C7, as the code has it. With the sentiment and topic model fixed,
    [analyze_behavior] returns the same typing speed, emotion and message
    length and the same set of topics whatever the iteration order of sets
    is, and an update with either result stores the same count for every
    topic; the order of the topic list is that of the set iteration, so
    the results are equal when the iteration order is the same. *)
Theorem analyze_behavior_same_up_to_topic_order (blob : TextBlob)
  (str : PyStr) (order1 order2 : SetIteration) (text : string) (t : float) :
  set_iteration_lawful order1 ->
  set_iteration_lawful order2 ->
  let s1 := @analyze_behavior blob order1 str text t in
  let s2 := @analyze_behavior blob order2 str text t in
  typing_speed s1 = typing_speed s2
  /\ emotion s1 = emotion s2
  /\ message_length s1 = message_length s2
  /\ NoDup (topics s1) /\ NoDup (topics s2)
  /\ topics s1 ≡ₚ topics s2
  /\ (forall (p : Persona) (k : string),
         dict_lookup
           (topic_interests (contextual_preferences (update_persona p s1))) k
         = dict_lookup
             (topic_interests (contextual_preferences (update_persona p s2))) k)
  /\ (order1 = order2 -> s1 = s2).
Proof.
  intros Hlaw1 Hlaw2 s1 s2.
  assert (Hnd1 : NoDup (topics s1)) by apply Hlaw1.
  assert (Hnd2 : NoDup (topics s2)) by apply Hlaw2.
  assert (Hperm : topics s1 ≡ₚ topics s2).
  { apply NoDup_Permutation; [exact Hnd1 | exact Hnd2 |].
    intros x. subst s1 s2. simpl. unfold map_context.
    rewrite (proj2 (Hlaw1 _) x), (proj2 (Hlaw2 _) x). reflexivity. }
  repeat split; try assumption.
  - intros p k. simpl. rewrite !count_topics_lookup.
    f_equal. apply occurrences_perm, Hperm.
  - intros ->. reflexivity.
Qed.

Lemma analyze_behavior_same_up_to_topic_order_witness :
  let s1 := @analyze_behavior (all_nouns 0) kept_order ascii_str
              "python rust" 1 in
  let s2 := @analyze_behavior (all_nouns 0) reversed_order ascii_str
              "python rust" 1 in
  topics s1 ≡ₚ topics s2.
Proof.
  exact (proj1 (proj2 (proj2 (proj2 (proj2 (proj2
    (analyze_behavior_same_up_to_topic_order (all_nouns 0) ascii_str
       kept_order reversed_order "python rust" 1
       kept_order_lawful reversed_order_lawful))))))).
Defined.

(** C7, as the specification states it, fails: two iteration orders of the
    same set give two different signals for the same text, and the updates
    insert the topics into the dict in different orders, which the topic
    hint shows. *)
Lemma analyze_behavior_depends_on_set_order :
  let s1 := @analyze_behavior (all_nouns 0) kept_order ascii_str
              "python rust" 1 in
  let s2 := @analyze_behavior (all_nouns 0) reversed_order ascii_str
              "python rust" 1 in
  let p1 := update_persona (new_persona_dict "user_1") s1 in
  let p2 := update_persona (new_persona_dict "user_1") s2 in
  set_iteration_lawful kept_order
  /\ set_iteration_lawful reversed_order
  /\ s1 <> s2
  /\ topics s1 = ["python"; "rust"]
  /\ topics s2 = ["rust"; "python"]
  /\ topic_interests (contextual_preferences p1) = [("python", 1); ("rust", 1)]
  /\ topic_interests (contextual_preferences p2) = [("rust", 1); ("python", 1)]
  /\ topic_hint p1 = "The user is often interested in topics like python, rust."
  /\ topic_hint p2 = "The user is often interested in topics like rust, python.".
Proof.
  cbv zeta.
  split; [exact kept_order_lawful |].
  split; [exact reversed_order_lawful |].
  split; [| repeat split; vm_compute; reflexivity].
  intros Heq. apply (f_equal topics) in Heq. vm_compute in Heq.
  discriminate Heq.
Qed.

(** ** The persona store *)

Lemma new_persona_is_dict (user_id : string) : is_dict (new_persona_dict user_id).
Proof. unfold is_dict. simpl. constructor. Qed.

Lemma dict_set_nodup {V : Type} (d : list (string * V)) (k : string) (v : V) :
  NoDup (map fst d) -> NoDup (map fst (dict_set d k v)).
Proof.
  intros Hnd. rewrite dict_set_keys.
  destruct (existsb (String.eqb k) (map fst d)) eqn:Hex; [exact Hnd |].
  apply NoDup_app. split; [exact Hnd |]. split; [| apply NoDup_singleton].
  intros x Hx Hk. apply list_elem_of_singleton in Hk. subst x.
  assert (Habs : existsb (String.eqb k) (map fst d) = true).
  { apply existsb_exists. exists k. split;
      [apply list_elem_of_In, Hx | apply String.eqb_refl]. }
  congruence.
Qed.

(** Updates keep a persona a dict. *)
Lemma update_persona_is_dict (p : Persona) (s : BehavioralData) :
  is_dict p -> is_dict (update_persona p s).
Proof.
  unfold is_dict. simpl.
  generalize (topic_interests (contextual_preferences p)) as d.
  induction (topics s) as [| x l IH]; intros d Hd; [exact Hd |].
  apply IH, dict_set_nodup, Hd.
Qed.

(** Setting a key that the dict does not have appends it. *)
Lemma dict_set_absent {V : Type} (d : list (string * V)) (k : string) (v : V) :
  k ∉ map fst d -> dict_set d k v = d ++ [(k, v)].
Proof.
  induction d as [| [k' v'] d IH]; intros Hk; [reflexivity |].
  simpl in *. apply not_elem_of_cons in Hk. destruct Hk as [Hne Hk].
  destruct (String.eqb_spec k' k); [congruence |].
  rewrite (IH Hk). reflexivity.
Qed.

Lemma fold_dict_set_fresh {V : Type} (items d : list (string * V)) :
  NoDup (map fst (d ++ items)) ->
  fold_left (fun d item => dict_set d item.1 item.2) items d = d ++ items.
Proof.
  revert d. induction items as [| [k v] items IH]; intros d Hnd.
  - rewrite app_nil_r. reflexivity.
  - simpl fold_left. rewrite dict_set_absent.
    + rewrite IH; rewrite <- app_assoc; [reflexivity | exact Hnd].
    + rewrite map_app in Hnd. apply NoDup_app in Hnd.
      destruct Hnd as (_ & Hdisjoint & _). intros Hin.
      apply (Hdisjoint k Hin). simpl. left.
Qed.

(** A dict is rebuilt from its own items as it was. *)
Lemma dict_of_items_dict {V : Type} (d : list (string * V)) :
  NoDup (map fst d) -> dict_of_items d = d.
Proof. intros Hnd. apply (fold_dict_set_fresh d []), Hnd. Qed.

Lemma loaded_persona_dict (p : Persona) : is_dict p -> loaded_persona p = p.
Proof.
  intros Hdict. destruct p as [uid style emo beh [d] n].
  unfold loaded_persona. simpl. unfold is_dict in Hdict. simpl in Hdict.
  rewrite (dict_of_items_dict d Hdict). reflexivity.
Qed.

(** The place of a path depends on the working directory and on the
    directories only. *)
Lemma walk_same_dirs (fs fs' : MemFS) (names current : list string) :
  dirs fs = dirs fs' -> walk fs current names = walk fs' current names.
Proof.
  intros Hdirs. revert current.
  induction names as [| name names IH]; intros current; [reflexivity |].
  simpl. unfold is_dir. rewrite Hdirs, !IH. reflexivity.
Qed.

Lemma locate_same_dirs (fs fs' : MemFS) (path : string) :
  cwd fs = cwd fs' -> dirs fs = dirs fs' -> locate fs path = locate fs' path.
Proof.
  intros Hcwd Hdirs. unfold locate, start_of.
  rewrite Hcwd, (walk_same_dirs fs fs' _ _ Hdirs). reflexivity.
Qed.

Lemma locate_after_write (fs : MemFS) (path : string)
  (contents : gmap (list string) (option Persona)) :
  locate {| cwd := cwd fs; dirs := dirs fs; files := contents |} path
  = locate fs path.
Proof. apply locate_same_dirs; reflexivity. Qed.

(** What a write that returns has done. *)
Lemma json_dump_returns (fs fs' : MemFS) (path : string) (p : Persona) :
  @json_dump MemFS mem_persistence fs path p = Return fs' ->
  exists location : list string,
    locate fs path = Some location
    /\ is_dir fs location = false
    /\ fs' = {| cwd := cwd fs;
                dirs := dirs fs;
                files := <[location := Some p]> (files fs) |}.
Proof.
  simpl. destruct (locate fs path) as [location |]; [| discriminate].
  destruct (is_dir fs location) eqn:Hdir; [discriminate |].
  intros H. injection H as <-. exists location. repeat split. exact Hdir.
Qed.

Lemma mem_persistence_laws : PersistenceLaws mem_persistence.
Proof.
  split; intros fs fs' path p Hdump.
  - intros Hdict. apply json_dump_returns in Hdump.
    destruct Hdump as (location & Hloc & Hdir & ->). simpl.
    rewrite locate_after_write, Hloc.
    unfold is_dir in *. simpl. rewrite Hdir, lookup_insert_eq.
    rewrite (loaded_persona_dict p Hdict). reflexivity.
  - apply json_dump_returns in Hdump.
    destruct Hdump as (location & Hloc & Hdir & ->). simpl.
    rewrite locate_after_write, Hloc.
    simpl. rewrite lookup_insert_eq.
    rewrite (bool_decide_eq_true_2 (is_Some (Some (Some p)))) by eauto.
    apply orb_true_r.
Qed.

(** Saving again what was saved returns, and changes nothing. *)
Lemma save_persona_again (fs fs1 : MemFS) (p : Persona) :
  @save_persona MemFS mem_persistence fs p = Return fs1 ->
  @save_persona MemFS mem_persistence fs1 p = Return fs1.
Proof.
  unfold save_persona. intros Hdump. apply json_dump_returns in Hdump.
  destruct Hdump as (location & Hloc & Hdir & ->). simpl.
  rewrite locate_after_write, Hloc.
  unfold is_dir in *. simpl. rewrite Hdir, insert_insert_eq. reflexivity.
Qed.

Section Store.
Context {FS : Type} {P : Persistence FS}.

(** C8. When the record of a user exists and loading it raises (the file is
    unreadable or not valid JSON), [get_or_create_persona] raises that
    error and returns no persona, a new one in particular; when no record
    exists it returns the new persona, with interaction count 0, neutral
    style and empty histories. *)
Theorem get_or_create_persona_error_or_default (fs : FS) (uid : string) :
  let filepath := get_persona_filepath uid in
  (forall e : exn,
      os_path_exists fs filepath = true ->
      json_load fs filepath = Raise e ->
      get_or_create_persona fs uid = Raise e
      /\ forall (fs' : FS) (p : Persona),
           get_or_create_persona fs uid <> Return (fs', p))
  /\ (os_path_exists fs filepath = false ->
      exists (fs' : FS) (p : Persona),
        get_or_create_persona fs uid = Return (fs', p)
        /\ p = new_persona_dict uid
        /\ user_id p = uid
        /\ interaction_count p = 0
        /\ communication_style p = "neutral"
        /\ sentiment_history (emotional_state p) = []
        /\ speed_history (behavioral_patterns p) = []
        /\ length_history (behavioral_patterns p) = []
        /\ topic_interests (contextual_preferences p) = []).
Proof.
  cbv zeta. unfold get_or_create_persona. split.
  - intros e Hexists Hload. rewrite Hexists, Hload.
    split; [reflexivity | discriminate].
  - intros Hexists. rewrite Hexists. unfold create_new_persona.
    eexists _, _. split; [reflexivity |]. repeat split.
Qed.

Hypothesis laws : PersistenceLaws P.

(** After a save that returned, the record of the user exists and loads as
    the persona saved. *)
Lemma load_after_save (fs fs1 : FS) (p : Persona) :
  is_dict p ->
  save_persona fs p = Return fs1 ->
  get_or_create_persona fs1 (user_id p) = Return (fs1, p).
Proof.
  intros Hdict Hsave. unfold get_or_create_persona. unfold save_persona in Hsave.
  rewrite (exists_after_dump P laws _ _ _ _ Hsave).
  rewrite (load_after_dump P laws _ _ _ _ Hsave Hdict). reflexivity.
Qed.

End Store.

(** C9, as the code has it. A persona whose save returns is loaded back
    equal to the original, in every field, and saving what was loaded
    returns as well and leaves the store as it was, so that the load after
    it gives the persona again. The save raises when the file of the
    persona cannot be opened for writing. *)
Theorem save_load_save_roundtrip (fs fs1 : MemFS) (p : Persona) :
  is_dict p ->
  @save_persona MemFS mem_persistence fs p = Return fs1 ->
  round_trip fs p
  /\ @get_or_create_persona MemFS mem_persistence fs1 (user_id p)
     = Return (fs1, p)
  /\ @save_persona MemFS mem_persistence fs1 p = Return fs1.
Proof.
  intros Hdict Hsave.
  pose proof (load_after_save mem_persistence_laws fs fs1 p Hdict Hsave)
    as Hload.
  pose proof (save_persona_again fs fs1 p Hsave) as Hagain.
  split; [| split; assumption].
  exists fs1. split; [exact Hsave |]. split; [exact Hload |].
  exists fs1. split; assumption.
Qed.

Lemma get_or_create_persona_error_or_default_witness :
  @get_or_create_persona MemFS mem_persistence corrupt_fs "user_1"
  = Raise JSONDecodeError
  /\ exists (fs' : MemFS) (p : Persona),
       @get_or_create_persona MemFS mem_persistence empty_fs "user_1"
       = Return (fs', p)
       /\ interaction_count p = 0.
Proof.
  split.
  - exact (proj1 (proj1 (@get_or_create_persona_error_or_default
                           MemFS mem_persistence corrupt_fs "user_1")
                    JSONDecodeError eq_refl eq_refl)).
  - destruct (proj2 (@get_or_create_persona_error_or_default
                       MemFS mem_persistence empty_fs "user_1") eq_refl)
      as (fs' & p & Hget & _ & _ & Hcount & _).
    exists fs', p. split; assumption.
Defined.

Lemma save_load_save_roundtrip_witness :
  round_trip personas_fs
    (update_all (new_persona_dict "user_1") python_rust_then_python).
Proof.
  refine (proj1 (save_load_save_roundtrip personas_fs
            {| cwd := [];
               dirs := {[ [PERSONA_DIR] ]};
               files :=
                 {[ [PERSONA_DIR; "user_1_persona.json"] :=
                      Some (update_all (new_persona_dict "user_1")
                              python_rust_then_python) ]} |}
            (update_all (new_persona_dict "user_1") python_rust_then_python)
            _ _)).
  - refine (bool_decide_unpack _ _). vm_compute. exact I.
  - vm_compute. reflexivity.
Defined.

(** C9, as the specification states it, fails. The persona that
    [get_or_create_persona] returns for the user id a/b cannot be saved:
    the directory personas/a of its file does not exist, and the save
    raises. *)
Lemma save_persona_raises_without_directory :
  let p := new_persona_dict "a/b" in
  @get_or_create_persona MemFS mem_persistence empty_fs "a/b"
  = Return (personas_fs, p)
  /\ is_dict p
  /\ @save_persona MemFS mem_persistence personas_fs p = Raise OSError
  /\ ~ round_trip personas_fs p.
Proof.
  cbv zeta.
  assert (Hsave : @save_persona MemFS mem_persistence personas_fs
                    (new_persona_dict "a/b") = Raise OSError)
    by (vm_compute; reflexivity).
  split; [vm_compute; reflexivity |].
  split; [apply new_persona_is_dict |].
  split; [exact Hsave |].
  intros (fs1 & Hreturn & _). rewrite Hsave in Hreturn. discriminate Hreturn.
Qed.

(** * Further properties of the engine *)

(** ** The histories as sliding windows *)

Lemma fold_append_capped {A : Type} (xs h : list A) :
  (length h <= 10)%nat ->
  fold_left append_capped xs h = drop (length (h ++ xs) - 10) (h ++ xs).
Proof.
  revert h. induction xs as [| x xs IH]; intros h Hh.
  - simpl. rewrite app_nil_r.
    replace (length h - 10)%nat with 0%nat by lia. reflexivity.
  - simpl fold_left.
    destruct (Nat.eq_dec (length h) 10%nat) as [Hfull | Hroom].
    + rewrite append_capped_full by (unfold HISTORY_LENGTH, len; lia).
      destruct h as [| y h]; [discriminate Hfull |]. simpl in Hfull. simpl tl.
      rewrite IH by (rewrite length_app; simpl; lia).
      rewrite <- !app_assoc. simpl app.
      assert (Hlen : (10 <= length (h ++ x :: xs))%nat)
        by (rewrite length_app; simpl; lia).
      simpl length.
      replace (S (length (h ++ x :: xs)) - 10)%nat
        with (S (length (h ++ x :: xs) - 10))%nat by lia.
      reflexivity.
    + rewrite append_capped_room by (unfold HISTORY_LENGTH, len; lia).
      rewrite IH by (rewrite length_app; simpl; lia).
      rewrite <- app_assoc. reflexivity.
Qed.

Lemma sentiment_history_update_all (p : Persona) (signals : list BehavioralData) :
  sentiment_history (emotional_state (update_all p signals))
  = fold_left append_capped (map (fun s => polarity (emotion s)) signals)
      (sentiment_history (emotional_state p)).
Proof.
  unfold update_all. revert p.
  induction signals as [| s signals IH]; intros p; [reflexivity |].
  simpl. rewrite IH. reflexivity.
Qed.

Lemma speed_history_update_all (p : Persona) (signals : list BehavioralData) :
  speed_history (behavioral_patterns (update_all p signals))
  = fold_left append_capped (map speed_score signals)
      (speed_history (behavioral_patterns p)).
Proof.
  unfold update_all. revert p.
  induction signals as [| s signals IH]; intros p; [reflexivity |].
  simpl. rewrite IH. reflexivity.
Qed.

(** X1. After any sequence of updates of a new persona each history is the
    list of the values of the last ten signals, oldest first (of all signals
    when there are fewer than ten): their polarities, the scores of their
    typing speeds and their message lengths. *)
Theorem histories_are_last_ten (user_id : string)
  (signals : list BehavioralData) :
  let p := update_all (new_persona_dict user_id) signals in
  let n := (length signals - 10)%nat in
  sentiment_history (emotional_state p)
  = drop n (map (fun s => polarity (emotion s)) signals)
  /\ speed_history (behavioral_patterns p) = drop n (map speed_score signals)
  /\ length_history (behavioral_patterns p)
     = drop n (map message_length signals).
Proof.
  cbv zeta.
  rewrite sentiment_history_update_all, speed_history_update_all,
    length_history_update_all.
  simpl. rewrite !fold_append_capped by (simpl; lia).
  simpl. rewrite !length_map. repeat split.
Qed.

Lemma len_append_capped_any {A : Type} (h : list A) (x : A) :
  len (append_capped h x) = if len h <? 10 then len h + 1 else len h.
Proof.
  destruct (Z.ltb_spec (len h) 10) as [Hlt | Hge].
  - rewrite append_capped_room by exact Hlt. apply len_app_one.
  - rewrite append_capped_full by exact Hge.
    rewrite len_app_one, len_tl; [lia |].
    intros ->. unfold len in Hge. simpl in Hge. lia.
Qed.

Lemma len_fold_append_capped_full {A : Type} (xs h : list A) :
  HISTORY_LENGTH <= len h -> len (fold_left append_capped xs h) = len h.
Proof.
  revert h. induction xs as [| x xs IH]; intros h Hh; [reflexivity |].
  assert (Hstep : len (append_capped h x) = len h).
  { rewrite len_append_capped_any. unfold HISTORY_LENGTH in Hh.
    destruct (Z.ltb_spec (len h) 10); [lia | reflexivity]. }
  simpl. rewrite IH; [exact Hstep | rewrite Hstep; exact Hh].
Qed.

(** X2. A history that already holds ten entries or more (a record read
    from a file that was edited) keeps exactly that number of entries
    through any sequence of updates: every update appends one entry and
    drops one, so an over-long history is never cut back to ten. The length
    history is then the old one followed by the new lengths, without as many
    leading entries as there were updates. *)
Theorem over_long_histories_stay_over_long (p : Persona)
  (signals : list BehavioralData) :
  let p' := update_all p signals in
  (HISTORY_LENGTH <= len (sentiment_history (emotional_state p)) ->
   len (sentiment_history (emotional_state p'))
   = len (sentiment_history (emotional_state p)))
  /\ (HISTORY_LENGTH <= len (speed_history (behavioral_patterns p)) ->
      len (speed_history (behavioral_patterns p'))
      = len (speed_history (behavioral_patterns p)))
  /\ (HISTORY_LENGTH <= len (length_history (behavioral_patterns p)) ->
      len (length_history (behavioral_patterns p'))
      = len (length_history (behavioral_patterns p))
      /\ length_history (behavioral_patterns p')
         = drop (length signals)
             (length_history (behavioral_patterns p)
              ++ map message_length signals)).
Proof.
  cbv zeta.
  rewrite sentiment_history_update_all, speed_history_update_all,
    length_history_update_all.
  split; [apply len_fold_append_capped_full |].
  split; [apply len_fold_append_capped_full |].
  intros Hlen. split; [apply len_fold_append_capped_full, Hlen |].
  generalize dependent (length_history (behavioral_patterns p)).
  induction signals as [| s signals IH]; intros h Hlen.
  - simpl. rewrite app_nil_r. reflexivity.
  - simpl fold_left. rewrite append_capped_full by exact Hlen.
    destruct h as [| y h];
      [unfold HISTORY_LENGTH, len in Hlen; simpl in Hlen; lia |].
    simpl tl. rewrite IH.
    + rewrite <- app_assoc. reflexivity.
    + unfold len in *. rewrite length_app. simpl in *. lia.
Qed.

Lemma over_long_histories_stay_over_long_witness :
  length_history (behavioral_patterns
    (update_all overlong_persona [example_signal 13 []; example_signal 14 []]))
  = [3; 4; 5; 6; 7; 8; 9; 10; 11; 12; 13; 14].
Proof.
  exact (proj2 (proj2 (proj2 (over_long_histories_stay_over_long
                                overlong_persona
                                [example_signal 13 []; example_signal 14 []]))
                  ltac:(vm_compute; discriminate))).
Defined.

Lemma fold_append_capped_forgets {A : Type} (xs h h' : list A) :
  len h <= HISTORY_LENGTH -> len h' <= HISTORY_LENGTH ->
  HISTORY_LENGTH <= len xs ->
  fold_left append_capped xs h = fold_left append_capped xs h'.
Proof.
  unfold HISTORY_LENGTH, len. intros Hh Hh' Hxs.
  rewrite !fold_append_capped by lia. rewrite !length_app.
  rewrite !drop_app_ge by lia. f_equal. lia.
Qed.

(** X3. Two personas whose histories are within the limit agree on the
    emotional state, the behavioural patterns and the communication style
    after the same ten or more signals: nothing from before the last ten
    messages shows in these fields. *)
Theorem ten_messages_erase_the_past (p q : Persona)
  (signals : list BehavioralData) :
  histories_within_limit p -> histories_within_limit q ->
  HISTORY_LENGTH <= len signals ->
  let p' := update_all p signals in
  let q' := update_all q signals in
  emotional_state p' = emotional_state q'
  /\ behavioral_patterns p' = behavioral_patterns q'
  /\ communication_style p' = communication_style q'.
Proof.
  intros (Hp1 & Hp2 & Hp3) (Hq1 & Hq2 & Hq3) Hlen. cbv zeta.
  assert (Hmap : forall (B : Type) (f : BehavioralData -> B),
             HISTORY_LENGTH <= len (map f signals))
    by (intros B f; unfold len; rewrite length_map; exact Hlen).
  pose proof (sentiment_history_update_all p signals) as Hs.
  pose proof (speed_history_update_all p signals) as Hv.
  pose proof (length_history_update_all p signals) as Hl.
  rewrite (fold_append_capped_forgets _ _ _ Hp1 Hq1 (Hmap _ _)),
    <- sentiment_history_update_all in Hs.
  rewrite (fold_append_capped_forgets _ _ _ Hp2 Hq2 (Hmap _ _)),
    <- speed_history_update_all in Hv.
  rewrite (fold_append_capped_forgets _ _ _ Hp3 Hq3 (Hmap _ _)),
    <- length_history_update_all in Hl.
  assert (Hne : signals <> []).
  { intros ->. unfold HISTORY_LENGTH, len in Hlen. simpl in Hlen. lia. }
  destruct (exists_last Hne) as (front & s & ->).
  rewrite !update_all_snoc in *. simpl in *.
  rewrite Hs, Hv, Hl. repeat split.
Qed.

Lemma ten_messages_erase_the_past_witness :
  let signals := map (fun n => example_signal n []) [1; 2; 3; 4; 5; 6; 7; 8; 9; 40] in
  behavioral_patterns
    (update_all (update_all (new_persona_dict "user_1") python_rust_then_python)
       signals)
  = behavioral_patterns (update_all (new_persona_dict "user_1") signals).
Proof.
  refine (proj1 (proj2 (ten_messages_erase_the_past
            (update_all (new_persona_dict "user_1") python_rust_then_python)
            (new_persona_dict "user_1")
            (map (fun n => example_signal n []) [1; 2; 3; 4; 5; 6; 7; 8; 9; 40])
            _ _ _))).
  - repeat split; vm_compute; discriminate.
  - repeat split; vm_compute; discriminate.
  - vm_compute. discriminate.
Defined.

(** ** The scores of the typing speed *)

Lemma speed_score_range (s : BehavioralData) : 1 <= speed_score s <= 4.
Proof.
  unfold speed_score, dict_get, speed_map. cbn [dict_lookup].
  repeat match goal with
         | |- context [String.eqb ?a ?b] => destruct (String.eqb a b)
         end; lia.
Qed.

Lemma Forall_append_capped {A : Type} (P : A -> Prop) (h : list A) (x : A) :
  Forall P h -> P x -> Forall P (append_capped h x).
Proof.
  intros Hh Hx. unfold append_capped.
  assert (Hall : Forall P (h ++ [x])) by (apply Forall_app; auto).
  destruct (_ <? _); [| exact Hall].
  destruct (h ++ [x]); [constructor | apply (Forall_inv_tail Hall)].
Qed.

(** X4. The speed history only receives scores between 1 and 4: an update
    keeps a history in that range, so the history of every run from a new
    persona is in it; a typing speed label that is not a key of [speed_map]
    is scored 2; and every label that [analyze_typing_speed] returns is a
    key. *)
Theorem speed_scores_between_1_and_4 :
  (forall (p : Persona) (s : BehavioralData),
      Forall (fun x => 1 <= x <= 4) (speed_history (behavioral_patterns p)) ->
      Forall (fun x => 1 <= x <= 4)
        (speed_history (behavioral_patterns (update_persona p s))))
  /\ (forall (user_id : string) (signals : list BehavioralData),
      Forall (fun x => 1 <= x <= 4)
        (speed_history (behavioral_patterns
           (update_all (new_persona_dict user_id) signals))))
  /\ (forall (p : Persona) (s : BehavioralData),
      dict_lookup speed_map (typing_speed s) = None ->
      last (speed_history (behavioral_patterns (update_persona p s))) = Some 2)
  /\ (forall t : float,
      exists score : Z,
        dict_lookup speed_map (analyze_typing_speed t) = Some score).
Proof.
  assert (Hstep : forall (p : Persona) (s : BehavioralData),
    Forall (fun x => 1 <= x <= 4) (speed_history (behavioral_patterns p)) ->
    Forall (fun x => 1 <= x <= 4)
      (speed_history (behavioral_patterns (update_persona p s)))).
  { intros p s Hp. simpl. apply Forall_append_capped; [exact Hp |].
    apply (speed_score_range s). }
  split; [exact Hstep |]. split; [| split].
  - intros user_id signals.
    induction signals as [| s signals IH] using rev_ind; [constructor |].
    rewrite update_all_snoc. apply Hstep, IH.
  - intros p s Hnone. simpl. unfold dict_get. rewrite Hnone.
    set (h := speed_history (behavioral_patterns p)).
    destruct (Z.ltb_spec (len h) 10) as [Hlt | Hge].
    + rewrite append_capped_room by exact Hlt. apply last_snoc.
    + rewrite append_capped_full by exact Hge. apply last_snoc.
  - intros t. unfold analyze_typing_speed.
    repeat (destruct (_ <? _)%float; [eexists; reflexivity |]).
    eexists; reflexivity.
Qed.

Lemma speed_scores_between_1_and_4_witness :
  last (speed_history (behavioral_patterns
          (update_persona (new_persona_dict "user_1") unlabelled_signal)))
  = Some 2.
Proof.
  exact (proj1 (proj2 (proj2 speed_scores_between_1_and_4))
           (new_persona_dict "user_1") unlabelled_signal eq_refl).
Defined.

Lemma SFleb_ltb_trans (x y z : spec_float) :
  SFleb x y = true -> SFltb y z = true -> SFltb x z = true.
Proof.
  destruct x as [sx | sx | | sx mx ex], y as [sy | sy | | sy my ey],
    z as [sz | sz | | sz mz ez];
    try (unfold SFleb, SFltb; simpl;
         repeat match goal with s : bool |- _ => destruct s end;
         simpl; congruence).
  destruct sx, sy, sz; try (unfold SFleb, SFltb; simpl; congruence);
    rewrite SFleb_finite, !SFltb_finite; lia.
Qed.

Lemma leb_ltb_trans (a b c : float) :
  (a <=? b)%float = true -> (b <? c)%float = true -> (a <? c)%float = true.
Proof. rewrite leb_spec, !ltb_spec. apply SFleb_ltb_trans. Qed.

(** X5. The score of the typing speed is antitone in the elapsed time: a
    reply that took at least as long never gets a higher score. *)
Theorem slower_reply_never_scores_higher (t1 t2 : float) :
  (t1 <=? t2)%float = true ->
  dict_get speed_map (analyze_typing_speed t2) 2
  <= dict_get speed_map (analyze_typing_speed t1) 2.
Proof.
  intros Hle. unfold analyze_typing_speed.
  pose proof (leb_ltb_trans t1 t2 (float_of_int 2) Hle) as H2.
  pose proof (leb_ltb_trans t1 t2 (float_of_int 5) Hle) as H5.
  pose proof (leb_ltb_trans t1 t2 (float_of_int 15) Hle) as H15.
  destruct (t2 <? float_of_int 2)%float.
  { rewrite (H2 eq_refl). apply Z.le_refl. }
  destruct (t2 <? float_of_int 5)%float.
  { rewrite (H5 eq_refl). destruct (t1 <? float_of_int 2)%float; vm_compute; discriminate. }
  destruct (t2 <? float_of_int 15)%float.
  { rewrite (H15 eq_refl).
    destruct (t1 <? float_of_int 2)%float; [vm_compute; discriminate |].
    destruct (t1 <? float_of_int 5)%float; vm_compute; discriminate. }
  destruct (t1 <? float_of_int 2)%float; [vm_compute; discriminate |].
  destruct (t1 <? float_of_int 5)%float; [vm_compute; discriminate |].
  destruct (t1 <? float_of_int 15)%float; vm_compute; discriminate.
Qed.

Lemma slower_reply_never_scores_higher_witness :
  dict_get speed_map (analyze_typing_speed 7) 2
  <= dict_get speed_map (analyze_typing_speed 1.5) 2.
Proof. exact (slower_reply_never_scores_higher 1.5 7 eq_refl). Defined.

(** ** The classifications against the exact mean *)

Lemma in_zrange (lo count : nat) (z : Z) :
  Z.of_nat lo <= z < Z.of_nat lo + Z.of_nat count -> In z (zrange lo count).
Proof.
  intros Hz. unfold zrange. apply in_map_iff. exists (Z.to_nat z).
  split; [lia | apply in_seq; lia].
Qed.

Lemma speed_table (sum n : Z) :
  0 <= sum <= 40 -> 1 <= n <= 10 ->
  classify_speed (PFloat (int_truediv sum n)) = exact_speed sum n.
Proof.
  intros Hs Hn.
  assert (Htable : speed_table_ok = true) by (vm_compute; reflexivity).
  unfold speed_table_ok in Htable. rewrite forallb_forall in Htable.
  specialize (Htable n (in_zrange 1 10 n ltac:(lia))).
  rewrite forallb_forall in Htable.
  specialize (Htable sum (in_zrange 0 41 sum ltac:(lia))).
  apply String.eqb_eq, Htable.
Qed.

Lemma style_table (sum n : Z) :
  0 <= sum <= 1000 -> 1 <= n <= 10 ->
  classify_style (PFloat (py_round (int_truediv sum n) 1)) = exact_style sum n.
Proof.
  intros Hs Hn.
  assert (Htable : style_table_ok = true) by (vm_compute; reflexivity).
  unfold style_table_ok in Htable. rewrite forallb_forall in Htable.
  specialize (Htable n (in_zrange 1 10 n ltac:(lia))).
  rewrite forallb_forall in Htable.
  specialize (Htable sum (in_zrange 0 1001 sum ltac:(lia))).
  apply String.eqb_eq, Htable.
Qed.

Lemma fold_left_add (l : list Z) (a : Z) :
  fold_left Z.add l a = a + fold_left Z.add l 0.
Proof.
  revert a. induction l as [| x l IH]; intros a; simpl; [lia |].
  rewrite (IH (a + x)), (IH (0 + x)). lia.
Qed.

Lemma py_sum_cons (x : Z) (l : list Z) : py_sum (x :: l) = x + py_sum l.
Proof. unfold py_sum. simpl. apply fold_left_add. Qed.

Lemma py_sum_bounds (lo hi : Z) (l : list Z) :
  Forall (fun x => lo <= x <= hi) l ->
  lo * len l <= py_sum l <= hi * len l.
Proof.
  induction 1 as [| x l Hx Hl IH].
  - unfold len, py_sum. simpl. lia.
  - rewrite py_sum_cons. unfold len in *. simpl length. lia.
Qed.

Lemma py_sum_constant (c : Z) (l : list Z) :
  Forall (fun x => x = c) l -> py_sum l = c * len l.
Proof.
  induction 1 as [| x l Hx Hl IH].
  - unfold len, py_sum. simpl. lia.
  - rewrite py_sum_cons, IH, Hx. unfold len. simpl length. lia.
Qed.

Lemma py_sum_nonneg (l : list Z) : Forall (fun x => 0 <= x) l -> 0 <= py_sum l.
Proof.
  induction 1 as [| x l Hx Hl IH]; [unfold py_sum; simpl; lia |].
  rewrite py_sum_cons. lia.
Qed.

Lemma Forall_fold_append_capped {A : Type} (P : A -> Prop) (xs h : list A) :
  Forall P xs -> Forall P h -> Forall P (fold_left append_capped xs h).
Proof.
  intros Hxs. revert h. induction Hxs as [| x xs Hx Hxs IH]; intros h Hh.
  - exact Hh.
  - simpl. apply IH, Forall_append_capped; assumption.
Qed.

Lemma len_positive {A : Type} (l : list A) : l <> [] -> 1 <= len l.
Proof. destruct l; [congruence | intros _; unfold len; simpl; lia]. Qed.

Lemma mean_or_nonempty (l : list Z) (default : pynum) :
  l <> [] -> mean_or l default = PFloat (int_truediv (py_sum l) (len l)).
Proof. destruct l; [congruence | reflexivity]. Qed.

Lemma rounded_mean_length_nonempty (l : list Z) :
  l <> [] ->
  rounded_mean_length l = PFloat (py_round (int_truediv (py_sum l) (len l)) 1).
Proof. destruct l; [congruence | reflexivity]. Qed.

(** The speed history of a run from a new persona: at most ten scores, each
    between 1 and 4. *)
Lemma speed_history_of_run (user_id : string) (signals : list BehavioralData) :
  let h := speed_history (behavioral_patterns
             (update_all (new_persona_dict user_id) signals)) in
  Forall (fun x => 1 <= x <= 4) h /\ len h <= 10.
Proof.
  cbv zeta. rewrite speed_history_update_all. simpl. split.
  - apply Forall_fold_append_capped; [| constructor].
    apply Forall_map, List.Forall_forall. intros s _. apply speed_score_range.
  - rewrite fold_append_capped by (simpl; lia). unfold len.
    rewrite length_drop. simpl. lia.
Qed.

Lemma avg_typing_speed_step (p : Persona) (s : BehavioralData) :
  let h := speed_history (behavioral_patterns (update_persona p s)) in
  Forall (fun x => 1 <= x <= 4) (speed_history (behavioral_patterns p)) ->
  len h <= 10 ->
  avg_typing_speed (behavioral_patterns (update_persona p s))
  = exact_speed (py_sum h) (len h).
Proof.
  cbv zeta. simpl. intros Hrange Hlen.
  set (h := append_capped (speed_history (behavioral_patterns p))
              (dict_get speed_map (typing_speed s) 2)) in *.
  assert (Hne : h <> []) by apply append_capped_not_nil.
  assert (Hh : Forall (fun x => 1 <= x <= 4) h).
  { apply Forall_append_capped; [exact Hrange | apply (speed_score_range s)]. }
  rewrite (mean_or_nonempty h _ Hne).
  pose proof (py_sum_bounds 1 4 h Hh). pose proof (len_positive h Hne).
  apply speed_table; lia.
Qed.

Lemma avg_typing_speed_of_run (user_id : string)
  (signals : list BehavioralData) :
  signals <> [] ->
  let p := update_all (new_persona_dict user_id) signals in
  let h := speed_history (behavioral_patterns p) in
  h <> []
  /\ avg_typing_speed (behavioral_patterns p) = exact_speed (py_sum h) (len h).
Proof.
  intros Hne. cbv zeta.
  destruct (exists_last Hne) as (front & s & ->).
  pose proof (speed_history_of_run user_id (front ++ [s])) as [_ Hlen].
  pose proof (speed_history_of_run user_id front) as [Hrange _].
  rewrite update_all_snoc in *. split.
  - simpl. apply append_capped_not_nil.
  - apply avg_typing_speed_step; assumption.
Qed.

(** X6. The float division and the comparisons with 3.5, 2.5 and 1.5
    decide as the exact mean does: for a speed history of at most ten scores
    between 1 and 4 the label is very_fast when twice the sum exceeds seven
    times the number of scores, fast when it exceeds five times, moderate
    when it exceeds three times, and slow otherwise. This is the case after
    every update of a run from a new persona. *)
Theorem avg_typing_speed_is_exact_bucket :
  (forall (p : Persona) (s : BehavioralData),
      let h := speed_history (behavioral_patterns (update_persona p s)) in
      Forall (fun x => 1 <= x <= 4) (speed_history (behavioral_patterns p)) ->
      len h <= 10 ->
      avg_typing_speed (behavioral_patterns (update_persona p s))
      = exact_speed (py_sum h) (len h))
  /\ (forall (user_id : string) (signals : list BehavioralData),
      signals <> [] ->
      let p := update_all (new_persona_dict user_id) signals in
      let h := speed_history (behavioral_patterns p) in
      avg_typing_speed (behavioral_patterns p) = exact_speed (py_sum h) (len h)).
Proof.
  split; [exact avg_typing_speed_step |].
  intros user_id signals Hne. apply avg_typing_speed_of_run, Hne.
Qed.

Lemma avg_typing_speed_is_exact_bucket_witness :
  avg_typing_speed (behavioral_patterns
    (update_all (new_persona_dict "user_1") python_rust_then_python))
  = "fast".
Proof.
  exact (proj2 avg_typing_speed_is_exact_bucket "user_1"
           python_rust_then_python ltac:(discriminate)).
Defined.

(** X7. When all signals of a run from a new persona carry the same typing
    speed label, the average typing speed is that label if it is one of the
    four of [speed_map], and moderate if it is none of them. *)
Theorem uniform_typing_speed_is_the_average (user_id label : string)
  (signals : list BehavioralData) :
  signals <> [] ->
  Forall (fun s => typing_speed s = label) signals ->
  let avg := avg_typing_speed (behavioral_patterns
               (update_all (new_persona_dict user_id) signals)) in
  (label = "very_fast" \/ label = "fast" \/ label = "moderate"
   \/ label = "slow" -> avg = label)
  /\ (dict_lookup speed_map label = None -> avg = "moderate").
Proof.
  intros Hne Hall. cbv zeta.
  destruct (avg_typing_speed_of_run user_id signals Hne) as [Hh ->].
  set (h := speed_history (behavioral_patterns
              (update_all (new_persona_dict user_id) signals))) in *.
  assert (Hconst : Forall (fun x => x = dict_get speed_map label 2) h).
  { subst h. rewrite speed_history_update_all. simpl.
    apply Forall_fold_append_capped; [| constructor].
    apply Forall_map. eapply Forall_impl; [exact Hall |].
    intros s Hs. unfold speed_score. rewrite Hs. reflexivity. }
  rewrite (py_sum_constant _ h Hconst).
  pose proof (len_positive h Hh) as Hlen.
  generalize dependent (len h). intros k Hk.
  assert (Hexact : forall c : Z,
    exact_speed (c * k) k
    = if 4 <=? c then "very_fast" else if 3 <=? c then "fast"
      else if 2 <=? c then "moderate" else "slow").
  { intros c. unfold exact_speed.
    repeat match goal with
           | |- context [Z.ltb ?a ?b] => destruct (Z.ltb_spec a b)
           | |- context [Z.leb ?a ?b] => destruct (Z.leb_spec a b)
           end; try reflexivity; nia. }
  rewrite Hexact. split.
  - intros [-> | [-> | [-> | ->]]]; reflexivity.
  - intros Hnone. unfold dict_get. rewrite Hnone. reflexivity.
Qed.

Lemma uniform_typing_speed_is_the_average_witness :
  avg_typing_speed (behavioral_patterns
    (update_all (new_persona_dict "user_1") python_rust_then_python))
  = "fast".
Proof.
  refine (proj1 (uniform_typing_speed_is_the_average "user_1" "fast"
                   python_rust_then_python ltac:(discriminate) _) _).
  - repeat constructor.
  - right. left. reflexivity.
Defined.

(** X8. Rounding the mean message length to one decimal never moves it
    across 30 or 10: for a length history of at most ten non-negative
    lengths whose sum is at most 1000, the style is detailed when the sum
    exceeds thirty times the number of entries, brief when it is below ten
    times that number, and neutral otherwise. *)
Theorem communication_style_is_exact (p : Persona) (s : BehavioralData) :
  let h := length_history (behavioral_patterns (update_persona p s)) in
  len h <= 10 ->
  Forall (fun x => 0 <= x) h ->
  py_sum h <= 1000 ->
  communication_style (update_persona p s) = exact_style (py_sum h) (len h).
Proof.
  cbv zeta. simpl. intros Hlen Hpos Hsum.
  set (h := append_capped (length_history (behavioral_patterns p))
              (message_length s)) in *.
  assert (Hne : h <> []) by apply append_capped_not_nil.
  rewrite (rounded_mean_length_nonempty h Hne).
  pose proof (py_sum_nonneg h Hpos). pose proof (len_positive h Hne).
  apply style_table; lia.
Qed.

Lemma communication_style_is_exact_witness :
  communication_style
    (update_persona (new_persona_dict "user_1") (example_signal 35 []))
  = "detailed".
Proof.
  refine (communication_style_is_exact (new_persona_dict "user_1")
            (example_signal 35 []) _ _ _).
  - vm_compute. discriminate.
  - repeat constructor. vm_compute. discriminate.
  - vm_compute. discriminate.
Defined.

(** ** The keys and the counts of the topic interests *)

Section DictKeys.
Context {V : Type}.

Lemma dict_lookup_None (d : list (string * V)) (k : string) :
  dict_lookup d k = None <-> k ∉ map fst d.
Proof.
  induction d as [| [k' v] d IH]; simpl.
  - split; [intros _; apply not_elem_of_nil | reflexivity].
  - rewrite not_elem_of_cons. destruct (String.eqb_spec k' k) as [-> | Hne].
    + split; [discriminate | intros [Hk _]; congruence].
    + rewrite IH. split; [intros H; split; [congruence | exact H] | intros [_ H]; exact H].
Qed.

End DictKeys.

Lemma occurrences_nonneg (t : string) (topics : list string) :
  0 <= occurrences t topics.
Proof. unfold occurrences. lia. Qed.

Lemma occurrences_zero (t : string) (topics : list string) :
  occurrences t topics = 0 <-> t ∉ topics.
Proof.
  unfold occurrences. split.
  - intros H Hin. apply list_elem_of_In in Hin.
    apply (count_occ_In string_dec) in Hin. lia.
  - intros H.
    assert (Hn : ~ In t topics) by (intros Hin; apply H, list_elem_of_In, Hin).
    apply (count_occ_not_In string_dec) in Hn. lia.
Qed.

Lemma count_topics_cons (d : list (string * Z)) (x : string)
  (topics : list string) :
  count_topics d (x :: topics)
  = count_topics (dict_set d x (dict_get d x 0 + 1)) topics.
Proof. reflexivity. Qed.

Lemma count_topics_keys_prefix (topics : list string) (d : list (string * Z)) :
  map fst d `prefix_of` map fst (count_topics d topics).
Proof.
  revert d. induction topics as [| x topics IH]; intros d; [reflexivity |].
  rewrite count_topics_cons. etransitivity; [| apply IH].
  rewrite dict_set_keys.
  destruct (existsb _ _); [reflexivity | apply prefix_app_r; reflexivity].
Qed.

Lemma count_topics_elem (topics : list string) (d : list (string * Z))
  (k : string) :
  k ∈ map fst (count_topics d topics) <-> k ∈ map fst d \/ k ∈ topics.
Proof.
  pose proof (count_topics_lookup topics d k) as Hl.
  pose proof (dict_lookup_None (count_topics d topics) k) as Ha.
  pose proof (dict_lookup_None d k) as Hb.
  pose proof (occurrences_zero k topics) as Hz.
  split.
  - intros Hin.
    destruct (decide (k ∈ map fst d)) as [| Hnd]; [left; assumption |]. right.
    destruct (decide (k ∈ topics)) as [| Hnt]; [assumption |]. exfalso.
    apply (proj2 Hb) in Hnd. apply (proj2 Hz) in Hnt.
    rewrite Hnd, Hnt in Hl. simpl in Hl. apply (proj1 Ha) in Hl. contradiction.
  - intros Hor.
    destruct (decide (k ∈ map fst (count_topics d topics))) as [| Hna];
      [assumption |]. exfalso.
    apply (proj2 Ha) in Hna. rewrite Hna in Hl.
    destruct (dict_lookup d k) eqn:E; simpl in Hl; [discriminate |].
    destruct (Z.eqb_spec (occurrences k topics) 0) as [Hz0 |]; [| discriminate].
    apply (proj1 Hz) in Hz0. apply (proj1 (dict_lookup_None d k)) in E. tauto.
Qed.

Lemma count_topics_get (topics : list string) (d : list (string * Z))
  (k : string) :
  dict_get (count_topics d topics) k 0
  = dict_get d k 0 + occurrences k topics.
Proof.
  unfold dict_get. rewrite count_topics_lookup.
  pose proof (occurrences_nonneg k topics).
  destruct (dict_lookup d k); simpl; [reflexivity |].
  destruct (Z.eqb_spec (occurrences k topics) 0); lia.
Qed.

Lemma update_all_cons (p : Persona) (s : BehavioralData)
  (signals : list BehavioralData) :
  update_all p (s :: signals) = update_all (update_persona p s) signals.
Proof. reflexivity. Qed.

Lemma update_all_keys_prefix (p : Persona) (signals : list BehavioralData) :
  topic_keys p `prefix_of` topic_keys (update_all p signals).
Proof.
  induction signals as [| s signals IH] using rev_ind; [reflexivity |].
  rewrite update_all_snoc. etransitivity; [exact IH |].
  apply count_topics_keys_prefix.
Qed.

Lemma update_all_keys_elem (p : Persona) (signals : list BehavioralData)
  (k : string) :
  k ∈ topic_keys (update_all p signals)
  <-> k ∈ topic_keys p \/ exists s, s ∈ signals /\ k ∈ topics s.
Proof.
  induction signals as [| x signals IH] using rev_ind.
  - split; [left; assumption |].
    intros [H | (s & Hs & _)]; [assumption |].
    exfalso. exact (not_elem_of_nil _ Hs).
  - rewrite update_all_snoc.
    change (topic_keys (update_persona (update_all p signals) x))
      with (map fst (count_topics
                       (topic_interests (contextual_preferences
                          (update_all p signals))) (topics x))).
    rewrite count_topics_elem.
    change (map fst (topic_interests (contextual_preferences
                       (update_all p signals))))
      with (topic_keys (update_all p signals)).
    rewrite IH. split.
    + intros [[H | (s & Hs & Hk)] | H].
      * left; assumption.
      * right. exists s. split; [apply elem_of_app; left; assumption | assumption].
      * right. exists x. split; [| assumption].
        apply elem_of_app. right. apply list_elem_of_singleton. reflexivity.
    + intros [H | (s & Hs & Hk)]; [left; left; assumption |].
      apply elem_of_app in Hs. destruct Hs as [Hs | Hs].
      * left. right. exists s. split; assumption.
      * apply list_elem_of_singleton in Hs. subst s. right. assumption.
Qed.

Lemma update_all_get_le (p : Persona) (signals : list BehavioralData)
  (k : string) :
  dict_get (topic_interests (contextual_preferences p)) k 0
  <= dict_get (topic_interests (contextual_preferences (update_all p signals)))
       k 0.
Proof.
  induction signals as [| s signals IH] using rev_ind; [apply Z.le_refl |].
  rewrite update_all_snoc. simpl. rewrite count_topics_get.
  pose proof (occurrences_nonneg k (topics s)). lia.
Qed.

(** X9. Topic interests only grow. After any sequence of updates the old
    keys are still the first keys of the dict, in their old order; the keys
    are the old keys and the topics of the signals; and no count is lower
    than before. *)
Theorem topics_are_never_forgotten (p : Persona)
  (signals : list BehavioralData) :
  let p' := update_all p signals in
  topic_keys p `prefix_of` topic_keys p'
  /\ (forall k : string,
        k ∈ topic_keys p'
        <-> k ∈ topic_keys p \/ exists s, s ∈ signals /\ k ∈ topics s)
  /\ (forall k : string,
        dict_get (topic_interests (contextual_preferences p)) k 0
        <= dict_get (topic_interests (contextual_preferences p')) k 0).
Proof.
  cbv zeta. split; [apply update_all_keys_prefix |].
  split; intros k; [apply update_all_keys_elem | apply update_all_get_le].
Qed.

Lemma total_count_dict_set (d : list (string * Z)) (k : string) :
  total_count (dict_set d k (dict_get d k 0 + 1)) = total_count d + 1.
Proof.
  unfold total_count. induction d as [| [k' v] d IH].
  - reflexivity.
  - unfold dict_get. simpl. destruct (String.eqb k' k); simpl map;
      rewrite !py_sum_cons; [lia |].
    fold (dict_get d k 0). rewrite IH. lia.
Qed.

Lemma total_count_count_topics (topics : list string)
  (d : list (string * Z)) :
  total_count (count_topics d topics) = total_count d + len topics.
Proof.
  revert d. induction topics as [| x topics IH]; intros d.
  - unfold len. simpl. lia.
  - rewrite count_topics_cons, IH, total_count_dict_set.
    unfold len. simpl length. lia.
Qed.

Lemma total_count_update_all (signals : list BehavioralData) (p : Persona) :
  total_count (topic_interests (contextual_preferences (update_all p signals)))
  = total_count (topic_interests (contextual_preferences p))
    + py_sum (map (fun s => len (topics s)) signals).
Proof.
  revert p. induction signals as [| s signals IH]; intros p.
  - unfold py_sum. simpl. lia.
  - rewrite update_all_cons, IH. simpl map. rewrite py_sum_cons.
    simpl. rewrite total_count_count_topics. lia.
Qed.

(** X10. An update counts a topic once for every occurrence in the topic
    list of the signal, also when the list repeats it; and after any
    sequence of updates the counts of the dict add up to their old sum plus
    the number of topics of all signals. *)
Theorem repeated_topics_count_each_time :
  (forall (p : Persona) (s : BehavioralData) (k : string),
      dict_get (topic_interests (contextual_preferences (update_persona p s)))
        k 0
      = dict_get (topic_interests (contextual_preferences p)) k 0
        + occurrences k (topics s))
  /\ (forall (p : Persona) (signals : list BehavioralData),
      total_count
        (topic_interests (contextual_preferences (update_all p signals)))
      = total_count (topic_interests (contextual_preferences p))
        + py_sum (map (fun s => len (topics s)) signals)).
Proof.
  split.
  - intros p s k. simpl. apply count_topics_get.
  - intros p signals. apply total_count_update_all.
Qed.

(** ** The persona files *)

Lemma length_append (a b : string) :
  String.length (a ++ b) = (String.length a + String.length b)%nat.
Proof.
  induction a as [| c a IH]; [reflexivity |].
  change (S (String.length (a ++ b)) = S (String.length a + String.length b)).
  f_equal. exact IH.
Qed.

Lemma append_inj_r (a b c : string) : (a ++ c = b ++ c)%string -> a = b.
Proof.
  revert b. induction a as [| x a IH]; intros [| y b] H.
  - reflexivity.
  - apply (f_equal String.length) in H. rewrite !length_append in H.
    simpl in H. lia.
  - apply (f_equal String.length) in H. rewrite !length_append in H.
    simpl in H. lia.
  - change (String x (a ++ c) = String y (b ++ c))%string in H.
    injection H as Hx H. f_equal; [exact Hx | apply IH, H].
Qed.

Lemma prefix_empty (s : string) : String.prefix "" s = true.
Proof. destruct s; reflexivity. Qed.

Lemma prefix_slash (s : string) :
  String.prefix "/" s = true -> exists r, s = String "/" r.
Proof.
  destruct s as [| c r]; cbn [String.prefix]; [discriminate |].
  destruct (ascii_dec "/" c) as [<- |]; [| discriminate].
  intros _. exists r. reflexivity.
Qed.

Lemma filepath_cases (uid : string) :
  get_persona_filepath uid
  = if String.prefix "/" uid then (uid ++ "_persona.json")%string
    else ("personas/" ++ uid ++ "_persona.json")%string.
Proof.
  unfold get_persona_filepath, os_path_join.
  destruct uid as [| c uid]; [reflexivity |].
  change (String c uid ++ "_persona.json")%string
    with (String c (uid ++ "_persona.json")%string).
  cbn [String.prefix]. destruct (ascii_dec "/" c); [| reflexivity].
  rewrite !prefix_empty. reflexivity.
Qed.

Lemma has_slash_app (a b : string) :
  has_slash (a ++ b) = has_slash a || has_slash b.
Proof.
  induction a as [| c a IH]; [reflexivity |].
  change (has_slash (String c (a ++ b))
          = has_slash (String c a) || has_slash b).
  simpl. rewrite IH. apply orb_assoc.
Qed.

Lemma prefix_slash_has_slash (s : string) :
  has_slash s = false -> String.prefix "/" s = false.
Proof.
  intros Hs. destruct (String.prefix "/" s) eqn:E; [| reflexivity].
  apply prefix_slash in E. destruct E as [r ->]. discriminate Hs.
Qed.

(** A name without a slash is read as one component. *)
Lemma split_slash_name (name word rest : string) :
  has_slash name = false ->
  split_slash word (name ++ rest) = split_slash (word ++ name) rest.
Proof.
  revert word. induction name as [| c name IH]; intros word Hname.
  - rewrite append_nil_r. reflexivity.
  - simpl in Hname. apply orb_false_elim in Hname. destruct Hname as [Hc Hname].
    change (String c name ++ rest)%string with (String c (name ++ rest)%string).
    simpl split_slash. rewrite Hc, (IH _ Hname), append_assoc. reflexivity.
Qed.

Lemma components_name (name : string) :
  has_slash name = false -> components name = [name].
Proof.
  intros Hname. unfold components.
  rewrite <- (append_nil_r name) at 1.
  rewrite (split_slash_name name "" "" Hname). reflexivity.
Qed.

(** The name of a persona file is a name of its own: neither empty, nor
    one of the two dot names. *)
Lemma persona_file_name (uid : string) :
  is_here (uid ++ "_persona.json") = false
  /\ String.eqb (uid ++ "_persona.json") ".." = false.
Proof.
  assert (Hlen : forall s : string,
             (String.length s < 13)%nat -> (uid ++ "_persona.json")%string <> s).
  { intros s Hs H. apply (f_equal String.length) in H.
    rewrite length_append in H. simpl in H. lia. }
  unfold is_here.
  rewrite (proj2 (String.eqb_neq _ "") (Hlen "" ltac:(simpl; lia))).
  rewrite (proj2 (String.eqb_neq _ ".") (Hlen "." ltac:(simpl; lia))).
  rewrite (proj2 (String.eqb_neq _ "..") (Hlen ".." ltac:(simpl; lia))).
  split; reflexivity.
Qed.

(** The place of a relative path that is a file name after the names of
    directories. *)
Lemma locate_relative (fs : MemFS) (path : string) (directories : list string)
  (name : string) :
  String.eqb path "" = false ->
  String.prefix "/" path = false ->
  components path = directories ++ [name] ->
  is_here name = false -> String.eqb name ".." = false ->
  locate fs path
  = match walk fs (cwd fs) directories with
    | Some directory => Some (directory ++ [name])
    | None => None
    end.
Proof.
  intros Hpath Hrel Hnames Hhere Hup. unfold locate, start_of.
  rewrite Hpath, Hrel, Hnames, removelast_last, last_last, Hhere, Hup.
  reflexivity.
Qed.

Lemma walk_personas (fs : MemFS) :
  walk fs (cwd fs) [PERSONA_DIR]
  = if is_dir fs (cwd fs ++ [PERSONA_DIR]) then Some (cwd fs ++ [PERSONA_DIR])
    else None.
Proof. reflexivity. Qed.

(** The record of a user id without a slash is an entry of the directory
    of the personas. *)
Lemma locate_persona_file (fs : MemFS) (uid : string) :
  has_slash uid = false ->
  locate fs (get_persona_filepath uid)
  = if is_dir fs (cwd fs ++ [PERSONA_DIR])
    then Some ((cwd fs ++ [PERSONA_DIR]) ++ [(uid ++ "_persona.json")%string])
    else None.
Proof.
  intros Huid. destruct (persona_file_name uid) as [Hhere Hup].
  rewrite filepath_cases, (prefix_slash_has_slash uid Huid).
  rewrite (locate_relative fs _ [PERSONA_DIR] (uid ++ "_persona.json"));
    try reflexivity; try assumption.
  - rewrite walk_personas. destruct (is_dir fs _); reflexivity.
  - change (components ("personas/" ++ uid ++ "_persona.json"))
      with ("personas" :: components (uid ++ "_persona.json")).
    rewrite components_name; [reflexivity |].
    rewrite has_slash_app, Huid. reflexivity.
Qed.

(** The user ids ./u and u name one file. *)
Lemma locate_dot_slash (fs : MemFS) (u : string) :
  has_slash u = false ->
  locate fs (get_persona_filepath ("./" ++ u))
  = locate fs (get_persona_filepath u).
Proof.
  intros Hu. destruct (persona_file_name u) as [Hhere Hup].
  rewrite (locate_persona_file fs u Hu), filepath_cases.
  change (String.prefix "/" ("./" ++ u)) with false. cbv iota.
  rewrite (locate_relative fs _ [PERSONA_DIR; "."] (u ++ "_persona.json"));
    try reflexivity; try assumption.
  - change (walk fs (cwd fs) [PERSONA_DIR; "."])
      with (walk fs (cwd fs) [PERSONA_DIR]).
    rewrite walk_personas. destruct (is_dir fs _); reflexivity.
  - change (components ("personas/" ++ ("./" ++ u) ++ "_persona.json"))
      with ("personas" :: "." :: components (u ++ "_persona.json")).
    rewrite components_name; [reflexivity |].
    rewrite has_slash_app, Hu. reflexivity.
Qed.

(** The user id ../u names a file of the working directory. *)
Lemma locate_dot_dot_slash (fs : MemFS) (u : string) :
  has_slash u = false ->
  is_dir fs (cwd fs ++ [PERSONA_DIR]) = true ->
  locate fs (get_persona_filepath ("../" ++ u))
  = Some (cwd fs ++ [(u ++ "_persona.json")%string]).
Proof.
  intros Hu Hdir. destruct (persona_file_name u) as [Hhere Hup].
  rewrite filepath_cases.
  change (String.prefix "/" ("../" ++ u)) with false. cbv iota.
  rewrite (locate_relative fs _ [PERSONA_DIR; ".."] (u ++ "_persona.json"));
    try reflexivity; try assumption.
  - change (walk fs (cwd fs) [PERSONA_DIR; ".."])
      with (if is_dir fs (cwd fs ++ [PERSONA_DIR])
            then Some (removelast (cwd fs ++ [PERSONA_DIR])) else None).
    rewrite Hdir, removelast_last. reflexivity.
  - change (components ("personas/" ++ ("../" ++ u) ++ "_persona.json"))
      with ("personas" :: ".." :: components (u ++ "_persona.json")).
    rewrite components_name; [reflexivity |].
    rewrite has_slash_app, Hu. reflexivity.
Qed.

(** X11. Where the record of a user lies, in a directory tree without
    links. For a user id without a slash it is the entry
    <user id>_persona.json of the directory personas of the working
    directory, and different such user ids have different files. A slash in
    the user id leads elsewhere: ./u names the file of u, ../u names the
    entry u_persona.json of the working directory itself, and a user id
    that starts with a slash is taken from the root, without
    [PERSONA_DIR]. *)
Theorem persona_file_of_a_user (fs : MemFS) :
  let personas := cwd fs ++ [PERSONA_DIR] in
  let file_of (uid : string) := locate fs (get_persona_filepath uid) in
  let name_of (uid : string) := (uid ++ "_persona.json")%string in
  (forall uid : string,
      has_slash uid = false ->
      file_of uid
      = if is_dir fs personas then Some (personas ++ [name_of uid]) else None)
  /\ (forall u1 u2 : string,
      has_slash u1 = false -> has_slash u2 = false ->
      is_dir fs personas = true -> file_of u1 = file_of u2 -> u1 = u2)
  /\ (forall u : string, has_slash u = false -> file_of ("./" ++ u)%string = file_of u)
  /\ (forall u : string,
      has_slash u = false -> is_dir fs personas = true ->
      file_of ("../" ++ u)%string = Some (cwd fs ++ [name_of u]))
  /\ (forall uid : string,
      String.prefix "/" uid = true ->
      get_persona_filepath uid = name_of uid
      /\ start_of fs (get_persona_filepath uid) = []).
Proof.
  cbv zeta. split; [apply locate_persona_file |].
  split; [| split; [apply locate_dot_slash |
                    split; [apply locate_dot_dot_slash |]]].
  - intros u1 u2 H1 H2 Hdir.
    rewrite (locate_persona_file fs u1 H1), (locate_persona_file fs u2 H2), Hdir.
    intros H. injection H as H. apply app_inv_head in H.
    injection H as H. apply append_inj_r in H. exact H.
  - intros uid Habs. rewrite filepath_cases, Habs. split; [reflexivity |].
    apply prefix_slash in Habs. destruct Habs as [r ->]. unfold start_of.
    change (String.prefix "/" (String "/" r ++ "_persona.json"))
      with (String.prefix "" (r ++ "_persona.json")).
    rewrite prefix_empty. reflexivity.
Qed.

Lemma persona_file_of_a_user_witness :
  locate personas_fs (get_persona_filepath "user_1")
  = Some [PERSONA_DIR; "user_1_persona.json"]
  /\ locate personas_fs (get_persona_filepath "./user_1")
     = locate personas_fs (get_persona_filepath "user_1")
  /\ locate personas_fs (get_persona_filepath "../user_1")
     = Some ["user_1_persona.json"].
Proof.
  split; [| split].
  - exact (proj1 (persona_file_of_a_user personas_fs) "user_1" eq_refl).
  - exact (proj1 (proj2 (proj2 (persona_file_of_a_user personas_fs)))
             "user_1" eq_refl).
  - exact (proj1 (proj2 (proj2 (proj2 (persona_file_of_a_user personas_fs))))
             "user_1" eq_refl eq_refl).
Defined.

(** ** The words of a message *)

Lemma has_space_app (a b : string) :
  has_space (a ++ b) = has_space a || has_space b.
Proof.
  induction a as [| c a IH]; [reflexivity |].
  change (has_space (String c (a ++ b))
          = has_space (String c a) || has_space b).
  simpl. rewrite IH. apply orb_assoc.
Qed.

Lemma append_not_empty (a : string) (c : ascii) :
  (a ++ String c "")%string <> "".
Proof. destruct a; discriminate. Qed.

Lemma split_from_word (w acc rest : string) :
  has_space w = false ->
  split_from acc (w ++ rest) = split_from (acc ++ w) rest.
Proof.
  revert acc. induction w as [| c w IH]; intros acc Hw.
  - rewrite append_nil_r. reflexivity.
  - simpl in Hw. apply orb_false_elim in Hw. destruct Hw as [Hc Hw].
    change (String c w ++ rest)%string with (String c (w ++ rest)%string).
    simpl split_from. rewrite Hc, (IH _ Hw), append_assoc. reflexivity.
Qed.

Lemma split_from_tokens (s acc : string) :
  has_space acc = false -> Forall is_word (split_from acc s).
Proof.
  revert acc. induction s as [| c s IH]; intros acc Hacc; simpl.
  - destruct (String.eqb_spec acc ""); constructor; [| constructor].
    split; assumption.
  - destruct (is_space c) eqn:Hc.
    + destruct (String.eqb_spec acc "").
      * apply IH. reflexivity.
      * constructor; [split; assumption | apply IH; reflexivity].
    + apply IH. rewrite has_space_app, Hacc. simpl. rewrite Hc. reflexivity.
Qed.

Lemma split_from_nil (s acc : string) :
  split_from acc s = [] <-> acc = "" /\ all_space s = true.
Proof.
  revert acc. induction s as [| c s IH]; intros acc; simpl.
  - destruct (String.eqb_spec acc ""); split; try tauto; try discriminate.
  - destruct (is_space c) eqn:Hc; simpl.
    + destruct (String.eqb_spec acc "") as [-> | Hne].
      * rewrite IH. tauto.
      * split; [discriminate | intros [? _]; contradiction].
    + rewrite IH. split; [| intros [_ ?]; discriminate].
      intros [Habs _]. exfalso. exact (append_not_empty acc c Habs).
Qed.

Lemma py_split_join (ws : list string) :
  Forall is_word ws -> py_split (join " " ws) = ws.
Proof.
  unfold py_split. induction 1 as [| w ws [Hne Hw] Hws IH]; [reflexivity |].
  destruct ws as [| y ws].
  - simpl join. rewrite <- (append_nil_r w) at 1.
    rewrite (split_from_word w "" "" Hw). change ("" ++ w)%string with w.
    simpl.
    destruct (String.eqb_spec w ""); [contradiction | reflexivity].
  - change (join " " (w :: y :: ws))
      with (w ++ String " " (join " " (y :: ws)))%string.
    rewrite (split_from_word w "" _ Hw).
    change ("" ++ w)%string with w. simpl split_from.
    change (is_space " ") with true. cbv iota.
    destruct (String.eqb_spec w ""); [contradiction |].
    f_equal. exact IH.
Qed.

(** X12. The message length is the number of words: a text made of words
    (non-empty, without whitespace) joined by single spaces has as many as
    were joined; the length is 0 exactly for a text of whitespace only (the
    empty text included); and the pieces that are counted are never empty
    and never contain whitespace. *)
Theorem message_length_counts_words {blob : TextBlob} {order : SetIteration}
  {str : PyStr} (t : float) :
  (forall ws : list string,
      Forall is_word ws ->
      message_length (analyze_behavior (join " " ws) t) = len ws)
  /\ (forall text : string,
      message_length (analyze_behavior text t) = 0 <-> all_space text = true)
  /\ (forall text : string, Forall is_word (py_split text)).
Proof.
  split; [| split].
  - intros ws Hws. simpl. rewrite (py_split_join ws Hws). reflexivity.
  - intros text. simpl. unfold py_split.
    pose proof (split_from_nil text "") as Hnil. split.
    + intros Hlen. apply Hnil.
      destruct (split_from "" text); [reflexivity |].
      unfold len in Hlen. simpl in Hlen. lia.
    + intros Hall. rewrite (proj2 Hnil (conj eq_refl Hall)). reflexivity.
  - intros text. apply split_from_tokens. reflexivity.
Qed.

Lemma message_length_counts_words_witness :
  message_length
    (@analyze_behavior (all_nouns 0) kept_order ascii_str
       "what is python" 3)
  = 3.
Proof.
  refine (proj1 (@message_length_counts_words (all_nouns 0) kept_order
                   ascii_str 3) ["what"; "is"; "python"] _).
  repeat constructor; discriminate.
Defined.

(** ** The topics of a text *)

Lemma is_common_word_false (w : string) :
  is_common_word w = false <-> w ∉ common_words.
Proof.
  unfold is_common_word. split.
  - intros H Hin. apply list_elem_of_In in Hin.
    assert (existsb (String.eqb w) common_words = true) as Habs
      by (apply existsb_exists; exists w; split;
          [exact Hin | apply String.eqb_refl]).
    congruence.
  - intros H. destruct (existsb _ _) eqn:E; [| reflexivity].
    apply existsb_exists in E. destruct E as (x & Hx & Heq).
    apply String.eqb_eq in Heq. subst x.
    exfalso. apply H, list_elem_of_In, Hx.
Qed.

Lemma map_context_elem {blob : TextBlob} {order : SetIteration} {str : PyStr}
  (text t : string) :
  set_iteration_lawful order ->
  t ∈ map_context text
  <-> exists w pos : string,
        ((w, pos) ∈ tags text) /\ String.prefix "NN" pos = true
        /\ (str_lower w ∉ common_words) /\ t = str_lower w.
Proof.
  intros Hlaw. unfold map_context. rewrite (proj2 (Hlaw _) t).
  rewrite list_elem_of_In, in_map_iff. split.
  - intros ([w pos] & Ht & Hin). apply filter_In in Hin.
    destruct Hin as [Hin Hf]. apply andb_true_iff in Hf.
    destruct Hf as [Hnn Hc]. apply negb_true_iff in Hc. simpl in *.
    exists w, pos. split; [apply list_elem_of_In, Hin |].
    split; [exact Hnn |]. split; [apply is_common_word_false, Hc | congruence].
  - intros (w & pos & Hin & Hnn & Hc & ->). exists (w, pos).
    split; [reflexivity |]. apply filter_In.
    split; [apply list_elem_of_In, Hin |]. simpl.
    rewrite Hnn. apply (proj2 (is_common_word_false _)) in Hc.
    rewrite Hc. reflexivity.
Qed.

(** X13. Under any iteration order of sets that lists each element once,
    the topics of a text are without repetition and are exactly the
    lower-cased words that are tagged as nouns (a tag that starts with NN)
    and whose lower-cased form is not a common word. So after any sequence
    of turns from a new persona none of the common words user, chatbot,
    question, answer and information is a key of the topic interests. *)
Theorem topics_are_uncommon_nouns {blob : TextBlob} {order : SetIteration}
  {str : PyStr} :
  set_iteration_lawful order ->
  (forall text : string,
      NoDup (map_context text)
      /\ (forall t : string,
            t ∈ map_context text
            <-> exists w pos : string,
                  ((w, pos) ∈ tags text) /\ String.prefix "NN" pos = true
                  /\ (str_lower w ∉ common_words) /\ t = str_lower w))
  /\ (forall (user_id : string) (turns : list (string * float)) (k : string),
      let p := update_all (new_persona_dict user_id)
                 (map (fun turn => analyze_behavior turn.1 turn.2) turns) in
      k ∈ common_words ->
      dict_lookup (topic_interests (contextual_preferences p)) k = None).
Proof.
  intros Hlaw. split.
  - intros text. split; [apply Hlaw |].
    intros t. apply map_context_elem, Hlaw.
  - intros user_id turns k p Hk. subst p. apply dict_lookup_None.
    intros Hin. apply (update_all_keys_elem _ _ k) in Hin.
    destruct Hin as [Hin | (s & Hs & Hin)].
    + exact (not_elem_of_nil _ Hin).
    + apply list_elem_of_In, in_map_iff in Hs.
      destruct Hs as ([text t] & <- & _). simpl in Hin.
      apply (map_context_elem text k Hlaw) in Hin.
      destruct Hin as (w & pos & _ & _ & Hc & ->). contradiction.
Qed.

Lemma topics_are_uncommon_nouns_witness :
  dict_lookup
    (topic_interests (contextual_preferences
       (update_all (new_persona_dict "user_1")
          (map (fun turn =>
                  @analyze_behavior (all_nouns 0) kept_order ascii_str
                    turn.1 turn.2)
             [("a question about Python", 3%float)]))))
    "question"
  = None.
Proof.
  refine (proj2 (@topics_are_uncommon_nouns (all_nouns 0) kept_order ascii_str
                   kept_order_lawful)
            "user_1" [("a question about Python", 3%float)] "question" _).
  refine (bool_decide_unpack _ _). vm_compute. exact I.
Defined.

(** ** A session *)

Lemma update_all_user_id (p : Persona) (signals : list BehavioralData) :
  user_id (update_all p signals) = user_id p.
Proof.
  induction signals as [| s signals IH] using rev_ind; [reflexivity |].
  rewrite update_all_snoc. exact IH.
Qed.

Lemma update_all_is_dict (p : Persona) (signals : list BehavioralData) :
  is_dict p -> is_dict (update_all p signals).
Proof.
  intros Hp. induction signals as [| s signals IH] using rev_ind; [exact Hp |].
  rewrite update_all_snoc. apply update_persona_is_dict, IH.
Qed.

Lemma update_all_interaction_count (p : Persona)
  (signals : list BehavioralData) :
  interaction_count (update_all p signals) = interaction_count p + len signals.
Proof.
  induction signals as [| s signals IH] using rev_ind.
  - unfold len. simpl. lia.
  - rewrite update_all_snoc, len_app_one. simpl. lia.
Qed.

Section Session.
Context {FS : Type} {P : Persistence FS}.
Context {blob : TextBlob} {order : SetIteration} {str : PyStr}.

Lemma run_session_snoc (fs : FS) (p : Persona) (turns : list (string * float))
  (turn : string * float) :
  run_session fs p (turns ++ [turn])
  = next_prompt (run_session fs p turns) turn.
Proof. unfold run_session. rewrite fold_left_app. reflexivity. Qed.

(** A prompt that is handled without an exception was handled in a state
    that was reached without one, and its save returned. *)
Lemma next_prompt_returns (state : result (FS * Persona))
  (turn : string * float) (fs' : FS) (p' : Persona) :
  next_prompt state turn = Return (fs', p') ->
  exists (fs : FS) (p : Persona),
    state = Return (fs, p)
    /\ p' = update_persona p (analyze_behavior turn.1 turn.2)
    /\ save_persona fs p' = Return fs'.
Proof.
  destruct state as [[fs p] | e]; [| discriminate].
  unfold next_prompt, on_prompt.
  destruct (save_persona fs _) as [fs1 | e] eqn:Hsave; [| discriminate].
  intros H. injection H as <- <-. exists fs, p. repeat split. exact Hsave.
Qed.

Lemma run_session_persona (fs fs' : FS) (p p' : Persona)
  (turns : list (string * float)) :
  run_session fs p turns = Return (fs', p') ->
  p' = update_all p (map (fun turn => analyze_behavior turn.1 turn.2) turns).
Proof.
  revert fs' p'.
  induction turns as [| turn turns IH] using rev_ind; intros fs' p' Hrun.
  - injection Hrun as _ <-. reflexivity.
  - rewrite run_session_snoc in Hrun. apply next_prompt_returns in Hrun.
    destruct Hrun as (fs0 & p0 & Hrun & -> & _).
    rewrite map_app. cbn [map]. rewrite update_all_snoc, <- (IH _ _ Hrun).
    reflexivity.
Qed.

(** X14. After every turn of a session the stored record is the persona of
    the session. With a file system on which a file that was written reads
    back as written, and a persona that is a dict at the start, when the
    saves of one or more turns have all returned, the persona is the
    initial one updated with the signals of the turns,
    [get_or_create_persona] for the user returns it from the file system as
    the turns left it, its interaction count has grown by the number of
    turns, and its user id is unchanged. *)
Theorem session_resumes_after_any_turn (fs : FS) (p : Persona)
  (turns : list (string * float)) (state : FS * Persona) :
  PersistenceLaws P -> is_dict p -> turns <> [] ->
  run_session fs p turns = Return state ->
  let signals := map (fun turn => analyze_behavior turn.1 turn.2) turns in
  state.2 = update_all p signals
  /\ get_or_create_persona state.1 (user_id p) = Return state
  /\ interaction_count state.2 = interaction_count p + len turns
  /\ user_id state.2 = user_id p.
Proof.
  intros laws Hp Hne Hrun. cbv zeta. destruct state as [fs' p'].
  pose proof (run_session_persona fs fs' p p' turns Hrun) as Hpersona.
  cbn [fst snd]. split; [exact Hpersona |]. split; [| split].
  - destruct (exists_last Hne) as (front & turn & ->).
    rewrite run_session_snoc in Hrun. apply next_prompt_returns in Hrun.
    destruct Hrun as (fs0 & p0 & _ & _ & Hsave).
    assert (Hid : user_id p = user_id p')
      by (rewrite Hpersona; symmetry; apply update_all_user_id).
    rewrite Hid. apply (load_after_save laws fs0); [| exact Hsave].
    rewrite Hpersona. apply update_all_is_dict, Hp.
  - rewrite Hpersona, update_all_interaction_count.
    unfold len. rewrite length_map. reflexivity.
  - rewrite Hpersona. apply update_all_user_id.
Qed.

(** X16. The instructions of the prompt follow the update of the same
    turn. The tone is upbeat when the polarity of the text exceeds 0.3,
    calm when it is below -0.3 and neutral otherwise, whatever the persona
    was before; the length instruction is the detailed one when the new
    average message length exceeds 30, the concise one when it is below 10,
    and the comprehensive one otherwise. *)
Theorem prompt_instructions_follow_the_update (p : Persona) (text : string)
  (t : float) :
  let p' := update_persona p (analyze_behavior text t) in
  let polarity := sentiment_polarity text in
  let avg := avg_message_length (behavioral_patterns p') in
  tone_instruction p'
  = (if (0.3 <? polarity)%float
     then "Your tone should be upbeat and encouraging."
     else if (polarity <? - 0.3)%float
     then "Your tone should be calm, empathetic, and reassuring."
     else "Your tone should be helpful and neutral.")
  /\ length_instruction p'
     = (if num_gt_int avg 30
        then "Provide a detailed, in-depth answer, explaining the concepts clearly."
        else if num_lt_int avg 10
        then "Keep your answer concise and to the point."
        else "Provide a comprehensive answer.").
Proof.
  cbv zeta. split.
  - unfold tone_instruction. simpl. unfold sentiment_label.
    destruct (0.3 <? sentiment_polarity text)%float; [reflexivity |].
    destruct (sentiment_polarity text <? - 0.3)%float; reflexivity.
  - unfold length_instruction. simpl. unfold classify_style.
    destruct (num_gt_int _ 30); [reflexivity |].
    destruct (num_lt_int _ 10); reflexivity.
Qed.

End Session.

Lemma session_resumes_after_any_turn_witness :
  let turns := [("python rust", 3%float); ("python", 1%float)] in
  let p :=
    update_all (new_persona_dict "user_1")
      (map (fun turn =>
              @analyze_behavior (all_nouns 0) kept_order ascii_str
                turn.1 turn.2) turns) in
  let fs :=
    {| cwd := [];
       dirs := {[ [PERSONA_DIR] ]};
       files := {[ [PERSONA_DIR; "user_1_persona.json"] := Some p ]} |} in
  @get_or_create_persona MemFS mem_persistence fs "user_1" = Return (fs, p)
  /\ interaction_count p = 2.
Proof.
  cbv zeta.
  destruct (@session_resumes_after_any_turn MemFS mem_persistence
              (all_nouns 0) kept_order ascii_str
              personas_fs (new_persona_dict "user_1")
              [("python rust", 3%float); ("python", 1%float)]
              _
              mem_persistence_laws (new_persona_is_dict "user_1")
              ltac:(discriminate) ltac:(vm_compute; reflexivity))
    as (_ & Hload & Hcount & _).
  split; [exact Hload | exact Hcount].
Defined.

(** ** The records of other users *)

(** After a write that returned, a path that names the place written to
    exists and loads as the persona written. *)
Lemma load_at_the_place_written (fs fs' : MemFS) (path path' : string)
  (p : Persona) :
  @json_dump MemFS mem_persistence fs path p = Return fs' ->
  locate fs path' = locate fs path ->
  is_dict p ->
  @os_path_exists MemFS mem_persistence fs' path' = true
  /\ @json_load MemFS mem_persistence fs' path' = Return p.
Proof.
  intros Hdump Hsame Hdict. apply json_dump_returns in Hdump.
  destruct Hdump as (location & Hloc & Hdir & ->). simpl.
  rewrite locate_after_write, Hsame, Hloc. unfold is_dir in *. simpl.
  rewrite Hdir, lookup_insert_eq, (loaded_persona_dict p Hdict). split.
  - rewrite (bool_decide_eq_true_2 (is_Some (Some (Some p)))) by eauto.
    reflexivity.
  - reflexivity.
Qed.

(** After a write that returned, a path that names another place exists
    and loads as before. *)
Lemma load_at_another_place (fs fs' : MemFS) (path path' : string)
  (p : Persona) :
  @json_dump MemFS mem_persistence fs path p = Return fs' ->
  locate fs path' <> locate fs path ->
  @os_path_exists MemFS mem_persistence fs' path' 
  = @os_path_exists MemFS mem_persistence fs path'
  /\ @json_load MemFS mem_persistence fs' path'
     = @json_load MemFS mem_persistence fs path'.
Proof.
  intros Hdump Hother. apply json_dump_returns in Hdump.
  destruct Hdump as (location & Hloc & Hdir & ->). simpl.
  rewrite locate_after_write. rewrite Hloc in Hother.
  destruct (locate fs path') as [location' |]; [| split; reflexivity].
  assert (Hne : location <> location') by congruence.
  unfold is_dir. simpl. rewrite (lookup_insert_ne _ _ _ _ Hne).
  split; reflexivity.
Qed.

Lemma save_persona_other_user (fs fs' : MemFS) (p : Persona) (uid : string) :
  has_slash uid = false -> has_slash (user_id p) = false ->
  uid <> user_id p ->
  @save_persona MemFS mem_persistence fs p = Return fs' ->
  loaded (@get_or_create_persona MemFS mem_persistence fs' uid)
  = loaded (@get_or_create_persona MemFS mem_persistence fs uid).
Proof.
  intros Huid Hp Hne Hsave. unfold save_persona in Hsave.
  assert (Hother : locate fs (get_persona_filepath uid)
                   <> locate fs (get_persona_filepath (user_id p))).
  { pose proof (json_dump_returns _ _ _ _ Hsave) as (location & Hloc & _).
    rewrite Hloc. rewrite (locate_persona_file fs _ Hp) in Hloc.
    rewrite (locate_persona_file fs uid Huid).
    destruct (is_dir fs (cwd fs ++ [PERSONA_DIR])); [| discriminate Hloc].
    injection Hloc as <-. intros H. injection H as H.
    apply app_inv_head in H. injection H as H. apply append_inj_r in H.
    contradiction. }
  destruct (load_at_another_place fs fs' _ _ p Hsave Hother)
    as [Hexists Hload].
  unfold get_or_create_persona. rewrite Hexists, Hload.
  destruct (os_path_exists fs _); [| reflexivity].
  destruct (json_load fs _); reflexivity.
Qed.

(** X15. In a directory tree without links, a save of a persona whose
    user id has no slash, and so every turn of its session, leaves what
    [get_or_create_persona] returns for any other user id without a slash
    as it was: the same persona, or the same error. A slash undoes this:
    after the save of a persona with the user id ./u,
    [get_or_create_persona] returns that persona for the user id u. *)
Theorem saving_leaves_other_users_alone {blob : TextBlob}
  {order : SetIteration} {str : PyStr} (fs : MemFS) (p : Persona)
  (uid : string) :
  has_slash uid = false ->
  (has_slash (user_id p) = false -> uid <> user_id p ->
   (forall fs' : MemFS,
       @save_persona MemFS mem_persistence fs p = Return fs' ->
       loaded (@get_or_create_persona MemFS mem_persistence fs' uid)
       = loaded (@get_or_create_persona MemFS mem_persistence fs uid))
   /\ (forall (turns : list (string * float)) (state : MemFS * Persona),
       @run_session MemFS mem_persistence blob order str fs p turns
       = Return state ->
       loaded (@get_or_create_persona MemFS mem_persistence state.1 uid)
       = loaded (@get_or_create_persona MemFS mem_persistence fs uid)))
  /\ (user_id p = ("./" ++ uid)%string -> is_dict p ->
      forall fs' : MemFS,
        @save_persona MemFS mem_persistence fs p = Return fs' ->
        @get_or_create_persona MemFS mem_persistence fs' uid
        = Return (fs', p)).
Proof.
  intros Huid. split.
  - intros Hp Hne. split.
    + intros fs' Hsave. apply (save_persona_other_user fs fs' p); assumption.
    + intros turns.
      induction turns as [| turn turns IH] using rev_ind; intros state Hrun.
      * injection Hrun as <-. reflexivity.
      * rewrite run_session_snoc in Hrun. destruct state as [fs' p'].
        apply next_prompt_returns in Hrun.
        destruct Hrun as (fs0 & p0 & Hrun & Hp' & Hsave).
        assert (Hid : user_id p' = user_id p).
        { rewrite Hp'. simpl. rewrite (run_session_persona _ _ _ _ _ Hrun).
          apply update_all_user_id. }
        cbn [fst]. rewrite <- (IH _ Hrun). cbn [fst].
        apply (save_persona_other_user fs0 fs' p'); try assumption;
          rewrite Hid; assumption.
  - intros Hid Hdict fs' Hsave. unfold save_persona in Hsave.
    assert (Hsame : locate fs (get_persona_filepath uid)
                    = locate fs (get_persona_filepath (user_id p)))
      by (rewrite Hid; symmetry; apply locate_dot_slash, Huid).
    destruct (load_at_the_place_written fs fs' _ _ p Hsave Hsame Hdict)
      as [Hexists Hload].
    unfold get_or_create_persona. rewrite Hexists, Hload. reflexivity.
Qed.

Lemma saving_leaves_other_users_alone_witness :
  match @save_persona MemFS mem_persistence corrupt_fs
          (new_persona_dict "user_2") with
  | Return fs' =>
      loaded (@get_or_create_persona MemFS mem_persistence fs' "user_1")
      = Raise JSONDecodeError
  | Raise _ => False
  end
  /\ match @save_persona MemFS mem_persistence corrupt_fs
             (new_persona_dict "./user_1") with
     | Return fs' =>
         @get_or_create_persona MemFS mem_persistence fs' "user_1"
         = Return (fs', new_persona_dict "./user_1")
     | Raise _ => False
     end.
Proof.
  split.
  - destruct (@save_persona MemFS mem_persistence corrupt_fs
                (new_persona_dict "user_2")) as [fs' | e] eqn:Hsave;
      [| vm_compute in Hsave; discriminate Hsave].
    exact (proj1 (proj1 (@saving_leaves_other_users_alone
                           (all_nouns 0) kept_order ascii_str corrupt_fs
                           (new_persona_dict "user_2") "user_1" eq_refl)
                    eq_refl ltac:(discriminate)) fs' Hsave).
  - destruct (@save_persona MemFS mem_persistence corrupt_fs
                (new_persona_dict "./user_1")) as [fs' | e] eqn:Hsave;
      [| vm_compute in Hsave; discriminate Hsave].
    exact (proj2 (@saving_leaves_other_users_alone
                    (all_nouns 0) kept_order ascii_str corrupt_fs
                    (new_persona_dict "./user_1") "user_1" eq_refl)
             eq_refl (new_persona_is_dict "./user_1") fs' Hsave).
Defined.
